(** * yarn isolate: sibling-workspace injection and folding

    A shallow embedding of the [Isolate] install command
    (src/cli/commands/isolate.js and its later revisions): sibling discovery,
    request injection, the version policy, pattern canonicalisation and the
    folding of sibling patterns into the target package before linking.

    The command is a class extending the generic installer.  Its instance
    fields are a record, its methods are functions in a state-and-exception
    monad over that record, and the objects it shares with the resolver live
    in an explicit store, so that a mutation of the target manifest is seen
    through every pattern that resolves to it. *)

From Stdlib Require Import Ascii String.
From stdpp Require Import base gmap strings option list.

Open Scope string_scope.
Open Scope list_scope.
Open Scope stdpp_scope.

(** ** JavaScript values *)

(** A non-empty string is truthy, the empty string is falsy. *)
Definition truthy (s : string) : bool := negb (String.eqb s "").

(** [undefined] and [null] are falsy; a string is judged by [truthy]. *)
Definition truthy_opt (o : option string) : bool :=
  match o with
  | Some s => truthy s
  | None => false
  end.

(** [a || b] on a possibly missing string. *)
Definition or_else (o : option string) (d : string) : string :=
  match o with
  | Some s => if truthy s then s else d
  | None => d
  end.

(** [Array.prototype.toString]: the elements joined by commas. *)
Fixpoint toString (l : list string) : string :=
  match l with
  | [] => ""
  | [x] => x
  | x :: rest => x +:+ "," +:+ toString rest
  end.

(** [s.indexOf(p) === 0] *)
Definition startsWith (p s : string) : bool := String.prefix p s.

(** ** Data model *)

(** [pkg._reference]: the registry the package came from and the patterns of
    the packages it depends on (the backlink list the linker walks).
    [dependencies] may be missing on the object. *)
Record PackageReference := {
  registry : string;
  dependencies : option (list string)
}.

(** A manifest.  [buckets] holds the dependency maps reached through the
    computed property [manifest[dependencyType]]: bucket name, then package
    name, then version specifier. *)
Record Manifest := {
  name : string;
  version : string;
  _reference : option PackageReference;
  buckets : gmap string (gmap string string)
}.

(** One member of the workspace set returned by [config.resolveWorkspaces]. *)
Record Workspace := {
  loc : string;
  manifest : Manifest
}.

(** A JavaScript object used as an ordered dictionary: the pairs are in the
    order in which [Object.keys] lists the keys; the keys of an object are
    distinct, which the theorems that need it assume as [NoDup]. *)
Definition keys {A} (o : list (string * A)) : list string := o.*1.

Fixpoint get {A} (o : list (string * A)) (k : string) : option A :=
  match o with
  | [] => None
  | (k', v) :: rest => if String.eqb k' k then Some v else get rest k
  end.

(** A dependency request handed to the resolver. *)
Record DependencyRequest := {
  pattern : string;
  req_registry : string;
  optional : bool
}.

(** [reporter.lang(key, ...args)]: a message of the language table. *)
Inductive message := Lang (key : string) (args : list string).

Inductive error :=
| MessageError (msg : message)
| InvariantViolation (msg : string)
| TypeError (what : string)
| CollaboratorError (what : string).

Inductive result (A : Type) :=
| Ok (a : A)
| Throw (e : error).
Arguments Ok {A} a.
Arguments Throw {A} e.

(** What the command does to the outside, in order. *)
Inductive event :=
| FsExists (path : string)
| ReadJson (path : string)
| NormalizeManifest (folder : string) (isRoot : bool)
| ResolveWorkspaces (folder : string)
| ConsoleWarn (msg : string)
| ReporterWarn (msg : message)
| ReplacePattern (old new : string)
| InstallInit.

(** ** The resolver's pattern table *)

(** Modelled from the spec: the package resolver (package-resolver.js) is not
    among the sources.  It is a pattern table; every resolved package is one
    shared object, here a cell of [packages], and a pattern names a cell. *)
Record Resolver := {
  patterns : gmap string nat;
  packages : gmap nat Manifest
}.

(** Modelled from the spec: [getResolvedPattern(pattern)] is the resolved
    package of a pattern, [undefined] when the table has none. *)
Definition getResolvedPattern (r : Resolver) (p : string) : option Manifest :=
  i ← patterns r !! p; packages r !! i.

(** Modelled from the spec: [replacePattern(old, new)] aliases the provisional
    pattern to the canonical one, so that later lookups by either string
    succeed. *)
Definition replacePattern (r : Resolver) (old new : string) : Resolver :=
  match patterns r !! old with
  | Some i => {| patterns := <[new := i]> (patterns r); packages := packages r |}
  | None => r
  end.

(** ** Configuration and instance state *)

Record Flags := {
  tilde : bool;
  exact : bool;
  workspaceRootIsCwd : bool;
  isolated : bool
}.

(** [save_prefix] is [String(config.getOption('save-prefix'))] and
    [save_exact] is [Boolean(config.getOption('save-exact'))]. *)
Record Config := {
  cwd : string;
  lockfileFolder : string;
  workspaceRootFolder : option string;
  save_prefix : string;
  save_exact : bool
}.

(** The instance.  [siblingWorkspaces] is declared on the class without an
    initialiser, so it is [undefined] ([None]) until assigned.
    [rootPatternsToOrigin] and [flagToOrigin] are read from the installer.
    [trace] records the observable effects, oldest first. *)
Record Isolate := {
  flags : Flags;
  config : Config;
  resolver : Resolver;
  siblingWorkspaces : option (list string);
  rootPatternsToOrigin : list (string * string);
  flagToOrigin : string;
  trace : list event
}.

(** ** Collaborators *)

Record NormalizedPattern := {
  hasVersion : bool;
  np_name : string;
  range : string
}.

(** Pure helpers imported from the rest of the code base and from the semver
    library; the booleans are the truthiness of what they return. *)
Record Collaborators := {
  normalizePattern : string -> NormalizedPattern;
  getExoticResolver : string -> bool;
  semver_satisfies : string -> string -> bool;
  semver_valid : string -> bool
}.

(** ** The version policy *)

Section VersionPolicy.
Variable E : Collaborators.

(** [getPatternVersion(pattern, pkg)].  The local [version] starts out
    [undefined] ([None]). *)
Definition getPatternVersion (this : Isolate) (pat : string) (pkg : Manifest) : string :=
  let isTilde := tilde (flags this) in
  let configPrefix := save_prefix (config this) in
  let isExact :=
    exact (flags this) || save_exact (config this) || String.eqb configPrefix "" in
  let np := normalizePattern E pat in
  let ver : option string :=
    if getExoticResolver E pat then Some pat
    else if hasVersion np && truthy (range np)
            && (semver_satisfies E (version pkg) (range np)
                || getExoticResolver E (range np))
    then Some (range np)
    else None in
  if negb (truthy_opt ver) || from_option (semver_valid E) false ver then
    let prefix := or_else (Some configPrefix) "^" in
    let prefix :=
      if isTilde then "~"
      else if truthy_opt ver || isExact then ""
      else prefix in
    prefix +:+ version pkg
  else default "" ver.
End VersionPolicy.

(** ** The monad of the methods: instance state and exceptions *)

Definition M (A : Type) : Type := Isolate -> result A * Isolate.

Definition ret {A} (a : A) : M A := fun s => (Ok a, s).
Definition throw {A} (e : error) : M A := fun s => (Throw e, s).
Definition bind {A B} (m : M A) (k : A -> M B) : M B :=
  fun s =>
    match m s with
    | (Ok a, s') => k a s'
    | (Throw e, s') => (Throw e, s')
    end.

Notation "x <- m ;; k" := (bind m (fun x => k))
  (at level 100, m at next level, right associativity).
Notation "m ;;; k" := (bind m (fun _ => k))
  (at level 100, right associativity).

Definition this : M Isolate := fun s => (Ok s, s).

Definition with_event (ev : event) (s : Isolate) : Isolate :=
  {| flags := flags s; config := config s; resolver := resolver s;
     siblingWorkspaces := siblingWorkspaces s;
     rootPatternsToOrigin := rootPatternsToOrigin s;
     flagToOrigin := flagToOrigin s; trace := trace s ++ [ev] |}.

Definition with_resolver (r : Resolver) (s : Isolate) : Isolate :=
  {| flags := flags s; config := config s; resolver := r;
     siblingWorkspaces := siblingWorkspaces s;
     rootPatternsToOrigin := rootPatternsToOrigin s;
     flagToOrigin := flagToOrigin s; trace := trace s |}.

Definition with_siblingWorkspaces (l : list string) (s : Isolate) : Isolate :=
  {| flags := flags s; config := config s; resolver := resolver s;
     siblingWorkspaces := Some l;
     rootPatternsToOrigin := rootPatternsToOrigin s;
     flagToOrigin := flagToOrigin s; trace := trace s |}.

Definition emit (ev : event) : M unit := fun s => (Ok tt, with_event ev s).
Definition set_resolver (r : Resolver) : M unit := fun s => (Ok tt, with_resolver r s).
Definition set_siblingWorkspaces (l : list string) : M unit :=
  fun s => (Ok tt, with_siblingWorkspaces l s).

(** The [invariant] package reads its message as a format string: every
    [%s] in it is replaced by the next extra argument.  The calls here pass
    no extra argument, so every [%s] of the text, which may come from an
    interpolated pattern, becomes [undefined]. *)
Fixpoint formatMessage (format : string) : string :=
  match format with
  | String "%" (String "s" rest) => "undefined" +:+ formatMessage rest
  | String c rest => String c (formatMessage rest)
  | EmptyString => EmptyString
  end.

(** [invariant(cond, msg)] *)
Definition invariant (cond : bool) (msg : string) : M unit :=
  if cond then ret tt else throw (InvariantViolation (formatMessage msg)).

(** A collaborator that may throw. *)
Definition lift {A} (r : result A) : M A := fun s => (r, s).

(** [for (const x of this.siblingWorkspaces)]: iterating [undefined] is a
    TypeError. *)
Definition iterable (o : option (list string)) : M (list string) :=
  match o with
  | Some l => ret l
  | None => throw (TypeError "this.siblingWorkspaces is not iterable")
  end.

(** [this.resolver.replacePattern(old, new)], recorded in the trace. *)
Definition resolver_replacePattern (old new : string) : M unit :=
  s <- this ;;
  emit (ReplacePattern old new) ;;;
  set_resolver (replacePattern (resolver s) old new).

(** ** Request injection *)

Definition siblingRequest (workspace : string) : DependencyRequest :=
  {| pattern := workspace; req_registry := "npm"; optional := false |}.

(** [prepareRequests(requests)]: a copy of [requests], then one [push] per
    sibling. *)
Definition prepareRequests (requests : list DependencyRequest) : M (list DependencyRequest) :=
  s <- this ;;
  sibs <- iterable (siblingWorkspaces s) ;;
  ret (fold_left (fun requestsWithArgs workspace =>
                    requestsWithArgs ++ [siblingRequest workspace])
                 sibs requests).

(** ** Canonicalisation *)

Section Canonicalisation.
Variable E : Collaborators.

(** The body of the loop of [preparePatterns].  A pattern the resolver does
    not know makes [pkg] undefined, and reading [pkg.version] or [pkg.name]
    throws before anything is pushed. *)
Fixpoint preparePatterns_loop (sibs : list string) (preparedPatterns : list string)
  : M (list string) :=
  match sibs with
  | [] => ret preparedPatterns
  | pat :: rest =>
      s <- this ;;
      match getResolvedPattern (resolver s) pat with
      | None => throw (TypeError "pkg is undefined")
      | Some pkg =>
          let ver := getPatternVersion E s pat pkg in
          let newPattern := name pkg +:+ "@" +:+ ver in
          let preparedPatterns := preparedPatterns ++ [newPattern] in
          if String.eqb newPattern pat then
            preparePatterns_loop rest preparedPatterns
          else
            resolver_replacePattern pat newPattern ;;;
            preparePatterns_loop rest preparedPatterns
      end
  end.

(** [preparePatterns(patterns)] *)
Definition preparePatterns (pats : list string) : M (list string) :=
  s <- this ;;
  sibs <- iterable (siblingWorkspaces s) ;;
  preparePatterns_loop sibs pats.
End Canonicalisation.

(** ** Folding into the target package *)

(** Modelled from the spec: [getStrictResolvedPattern(pattern)] is the
    resolved package of a pattern and throws when the table has none.  The
    package is returned as the shared object itself: its cell. *)
Definition getStrictResolvedPattern (r : Resolver) (p : string) : result nat :=
  match patterns r !! p with
  | Some i =>
      match packages r !! i with
      | Some _ => Ok i
      | None => Throw (InvariantViolation "expected manifest")
      end
  | None => Throw (InvariantViolation "expected manifest")
  end.

(** Reading and writing through an object reference. *)
Definition read_cell (i : nat) : M Manifest :=
  s <- this ;;
  match packages (resolver s) !! i with
  | Some m => ret m
  | None => throw (TypeError "manifest is undefined")
  end.

Definition write_cell (i : nat) (m : Manifest) : M unit :=
  s <- this ;;
  set_resolver {| patterns := patterns (resolver s);
                  packages := <[i := m]> (packages (resolver s)) |}.

(** [manifest[dependencyType] = manifest[dependencyType] || {}] *)
Definition ensure_bucket (dependencyType : string) (m : Manifest) : Manifest :=
  {| name := name m; version := version m; _reference := _reference m;
     buckets := match buckets m !! dependencyType with
                | Some _ => buckets m
                | None => <[dependencyType := ∅]> (buckets m)
                end |}.

(** [manifest[dependencyType][pkgName] === version] *)
Definition recorded (m : Manifest) (dependencyType pkgName ver : string) : bool :=
  match buckets m !! dependencyType ≫= (.!! pkgName) with
  | Some v => String.eqb v ver
  | None => false
  end.

(** [ref['dependencies'] = ref['dependencies'] || []; ref['dependencies'].push(pattern)] *)
Definition push_dependency (pat : string) (m : Manifest) (ref : PackageReference) : Manifest :=
  {| name := name m; version := version m;
     _reference := Some {| registry := registry ref;
                           dependencies := Some (default [] (dependencies ref) ++ [pat]) |};
     buckets := buckets m |}.

(** The callback [preparePatternsForLinking] hands to
    [_iterateAddedPackages].  It closes over [manifest] (the cell [target]),
    over the argument [patterns] (here [pats]) and over the variable
    [newPatterns] it reassigns, which is threaded through as an accumulator. *)
Definition foldAdded (target : nat) (pats : list string)
    (pat registry dependencyType pkgName ver : string) (newPatterns : list string)
  : M (list string) :=
  let filtered := filter (fun p => p ≠ pat) newPatterns in
  invariant (0 <? length newPatterns - length filtered)%nat
            ("expect added pattern '" +:+ pat +:+ "' in the list: " +:+ toString pats) ;;;
  m <- read_cell target ;;
  let m := ensure_bucket dependencyType m in
  write_cell target m ;;;
  if recorded m dependencyType pkgName ver then ret filtered
  else
    match _reference m with
    | None =>
        throw (InvariantViolation
                 (formatMessage "manifest._reference should not be null"))
    | Some ref => write_cell target (push_dependency pat m ref) ;;; ret filtered
    end.

Section Folding.
Variable E : Collaborators.

(** The [reduce] over the pattern origins: the last recorded root pattern
    of this package name decides the dependency type. *)
Definition originOf (origins : list (string * string)) (patternOrigins : list string)
    (pkgName : string) : option string :=
  fold_left (fun acc prev =>
               if startsWith (pkgName +:+ "@") prev then get origins prev else acc)
            patternOrigins None.

(** The loop of [_iterateAddedPackages]; [acc] is the state its callback
    keeps between calls. *)
Fixpoint iterateAdded_loop {A}
    (f : string -> string -> string -> string -> string -> A -> M A)
    (patternOrigins : list string) (sibs : list string) (acc : A) : M A :=
  match sibs with
  | [] => ret acc
  | pat :: rest =>
      s <- this ;;
      match getResolvedPattern (resolver s) pat with
      | None => throw (InvariantViolation (formatMessage ("missing package " +:+ pat)))
      | Some pkg =>
          let ver := getPatternVersion E s pat pkg in
          match _reference pkg with
          | None =>
              throw (InvariantViolation (formatMessage "expected package reference"))
          | Some ref =>
              let depType := originOf (rootPatternsToOrigin s) patternOrigins (name pkg) in
              let target := or_else depType (flagToOrigin s) in
              acc' <- f pat (registry ref) target (name pkg) ver acc ;;
              iterateAdded_loop f patternOrigins rest acc'
          end
      end
  end.

(** [_iterateAddedPackages(f)] *)
Definition _iterateAddedPackages {A}
    (f : string -> string -> string -> string -> string -> A -> M A) (acc : A) : M A :=
  s <- this ;;
  let patternOrigins := keys (rootPatternsToOrigin s) in
  sibs <- iterable (siblingWorkspaces s) ;;
  iterateAdded_loop f patternOrigins sibs acc.

(** [preparePatternsForLinking(patterns, cwdManifest, cwdIsRoot)] *)
Definition preparePatternsForLinking (pats : list string) (cwdManifest : Manifest)
    (cwdIsRoot : bool) : M (list string) :=
  if cwdIsRoot then ret pats
  else
    let cwdPackage := name cwdManifest +:+ "@" +:+ version cwdManifest in
    s <- this ;;
    match getStrictResolvedPattern (resolver s) cwdPackage with
    | Throw _ =>
        emit (ReporterWarn (Lang "unknownPackage" [cwdPackage])) ;;;
        ret pats
    | Ok target => _iterateAddedPackages (foldAdded target pats) pats
    end.
End Folding.

(** ** The integrity bailout *)

(** A workspace layout is only passed along. *)
Record WorkspaceLayout := {
  workspaces : list (string * Workspace);
  virtualManifestName : string
}.

(** [bailout(patterns, workspaceLayout)] *)
Definition bailout (pats : list string) (workspaceLayout : option WorkspaceLayout) : M bool :=
  ret false.

(** The first revision of the command (src/cli/commands/isolate.js). *)
Module FirstRevision.
(** [bailout(patterns, workspaceLayout)] *)
Definition bailout (pats : list string) (workspaceLayout : option WorkspaceLayout) : M bool :=
  ret false.
End FirstRevision.

(** ** Sibling discovery and [init] *)

(** The file system, the manifest readers and the generic installer; the
    command reaches them through [fs], [config] and [Install.prototype]. *)
Record World := {
  registries : list (string * string);
  path_join : string -> string -> string;
  fs_exists : string -> bool;
  config_readJson : string -> result Manifest;
  normalizeManifest : Manifest -> string -> bool -> result Manifest;
  config_resolveWorkspaces : string -> Manifest -> result (list (string * Workspace));
  Install_init : M (list string)
}.

(** [`${w}@${allWorkspaces[w].manifest.version}`] *)
Definition workspacePattern (allWorkspaces : list (string * Workspace)) (w : string)
  : result string :=
  match get allWorkspaces w with
  | Some ws => Ok (w +:+ "@" +:+ version (manifest ws))
  | None => Throw (TypeError "allWorkspaces[w] is undefined")
  end.

Fixpoint map_result {A B} (f : A -> result B) (l : list A) : result (list B) :=
  match l with
  | [] => Ok []
  | x :: rest =>
      match f x with
      | Ok y =>
          match map_result f rest with
          | Ok ys => Ok (y :: ys)
          | Throw e => Throw e
          end
      | Throw e => Throw e
      end
  end.

(** [Object.keys(allWorkspaces).filter(w => w !== currentWorkspace).map(...)] *)
Definition siblingPatterns (allWorkspaces : list (string * Workspace))
    (currentWorkspace : string) : result (list string) :=
  map_result (workspacePattern allWorkspaces)
             (filter (fun w => w ≠ currentWorkspace) (keys allWorkspaces)).

Section Discovery.
Variable W : World.

Definition exists_ (path : string) : M bool :=
  emit (FsExists path) ;;; ret (fs_exists W path).

(** The loop over the registries: the first one whose manifest file exists
    both at the root and in the workspace. *)
Fixpoint findRegistry (regs : list (string * string)) : M (option (string * string)) :=
  match regs with
  | [] => ret None
  | (_, filename) :: rest =>
      s <- this ;;
      let rootLoc := path_join W (lockfileFolder (config s)) filename in
      let workspaceLoc := path_join W (cwd (config s)) filename in
      atRoot <- exists_ rootLoc ;;
      if negb atRoot then findRegistry rest
      else
        atWorkspace <- exists_ workspaceLoc ;;
        if negb atWorkspace then findRegistry rest
        else ret (Some (rootLoc, workspaceLoc))
  end.

Definition readManifest (path folder : string) (isRoot : bool) : M Manifest :=
  emit (ReadJson path) ;;;
  raw <- lift (config_readJson W path) ;;
  emit (NormalizeManifest folder isRoot) ;;;
  lift (normalizeManifest W raw folder isRoot).

(** [setSiblingWorkspaces()] *)
Definition setSiblingWorkspaces : M unit :=
  found <- findRegistry (registries W) ;;
  match found with
  | None => emit (ConsoleWarn "no sibling workspaces")
  | Some (rootLoc, workspaceLoc) =>
      s <- this ;;
      rootManifest <- readManifest rootLoc (lockfileFolder (config s)) true ;;
      workspaceManifest <- readManifest workspaceLoc (cwd (config s)) false ;;
      let currentWorkspace := name workspaceManifest in
      emit (ResolveWorkspaces (lockfileFolder (config s))) ;;;
      allWorkspaces <-
        lift (config_resolveWorkspaces W (lockfileFolder (config s)) rootManifest) ;;
      sibs <- lift (siblingPatterns allWorkspaces currentWorkspace) ;;
      set_siblingWorkspaces sibs
  end.

(** [this.config.workspaceRootFolder && this.config.cwd === this.config.workspaceRootFolder] *)
Definition cwdIsWorkspaceRoot (c : Config) : bool :=
  match workspaceRootFolder c with
  | Some root => truthy root && String.eqb (cwd c) root
  | None => false
  end.

(** [init()] *)
Definition init : M (list string) :=
  s <- this ;;
  if cwdIsWorkspaceRoot (config s) then
    throw (MessageError (Lang "workspacesIsolateRootCheck" []))
  else
    setSiblingWorkspaces ;;;
    emit InstallInit ;;;
    pats <- Install_init W ;;
    ret pats.
End Discovery.

(** [new Isolate(flags, config, reporter, lockfile)].  The installer's
    constructor, which is not among the sources, sets up the resolver and the
    origin tables; they are passed in.  Nothing assigns [siblingWorkspaces]. *)
Definition new_Isolate (rawFlags : option Flags) (c : Config) (r : Resolver)
    (origins : list (string * string)) (defaultOrigin : string) : Isolate :=
  let rootIsCwd := String.eqb (cwd c) (lockfileFolder c) in
  {| flags := {| tilde := from_option tilde false rawFlags;
                 exact := from_option exact false rawFlags;
                 workspaceRootIsCwd := rootIsCwd;
                 isolated := true |};
     config := c;
     resolver := r;
     siblingWorkspaces := None;
     rootPatternsToOrigin := origins;
     flagToOrigin := defaultOrigin;
     trace := [] |}.

(** ** Sample collaborators

    Small executable stand-ins for the imported helpers, on the fragment of
    patterns and versions the examples use: versions [X.Y.Z] and the ranges
    [X.Y.Z], [^X.Y.Z] and [~X.Y.Z]. *)
Module Sample.

(** The text before and after the first occurrence of a character. *)
Fixpoint cut (c : ascii) (s : string) : option (string * string) :=
  match s with
  | EmptyString => None
  | String a rest =>
      if Ascii.eqb a c then Some (EmptyString, rest)
      else '(before, after) ← cut c rest; Some (String a before, after)
  end.

(** Modelled from the spec: [normalizePattern] (util/normalize-pattern.js)
    is not among the sources.  A pattern is [name@range]; a leading [@]
    marks a scoped name and belongs to the name; without [@range] there is
    no version, and the range it then reports is not used here. *)
Definition normalize (pat : string) : NormalizedPattern :=
  let '(isScoped, body) :=
    match pat with
    | String "@" rest => (true, rest)
    | _ => (false, pat)
    end in
  let scope := if isScoped then "@" else "" in
  match cut "@" body with
  | Some (n, r) =>
      if truthy r then {| hasVersion := true; np_name := scope +:+ n; range := r |}
      else {| hasVersion := false; np_name := scope +:+ n; range := "*" |}
  | None => {| hasVersion := false; np_name := scope +:+ body; range := "latest" |}
  end.

(** Modelled from the spec: [getExoticResolver] (resolvers/index.js) is not
    among the sources.  An exotic reference is resolved by a mechanism other
    than the registry: a local path, a URL or a VCS reference. *)
Definition exotic (pat : string) : bool :=
  existsb (fun p => startsWith p pat)
          ["git+"; "git:"; "http://"; "https://"; "file:"; "./"; "../"; "/"].

Definition digit (a : ascii) : option N :=
  let n := N_of_ascii a in
  if (48 <=? n)%N && (n <=? 57)%N then Some (n - 48)%N else None.

Fixpoint number_from (s : string) (acc : N) : option N :=
  match s with
  | EmptyString => Some acc
  | String a rest => d ← digit a; number_from rest (acc * 10 + d)%N
  end.

Definition number (s : string) : option N :=
  match s with
  | EmptyString => None
  | _ => number_from s 0%N
  end.

(** [X.Y.Z] *)
Definition parse (s : string) : option (N * N * N) :=
  '(x, rest) ← cut "." s;
  '(y, z) ← cut "." rest;
  major ← number x; minor ← number y; patch ← number z;
  Some (major, minor, patch).

(** [semver.valid(v)] on [X.Y.Z] *)
Definition valid (v : string) : bool :=
  match parse v with Some _ => true | None => false end.

Definition caret (v r : N * N * N) : bool :=
  let '(a, b, c) := v in
  let '(m, n, p) := r in
  if (0 <? m)%N then (a =? m)%N && ((n <? b)%N || ((b =? n)%N && (p <=? c)%N))
  else if (0 <? n)%N then (a =? 0)%N && (b =? n)%N && (p <=? c)%N
  else (a =? 0)%N && (b =? 0)%N && (c =? p)%N.

Definition tilde_range (v r : N * N * N) : bool :=
  let '(a, b, c) := v in
  let '(m, n, p) := r in
  (a =? m)%N && (b =? n)%N && (p <=? c)%N.

Definition same (v r : N * N * N) : bool :=
  let '(a, b, c) := v in
  let '(m, n, p) := r in
  (a =? m)%N && (b =? n)%N && (c =? p)%N.

(** [semver.satisfies(v, range)] on the ranges [X.Y.Z], [^X.Y.Z], [~X.Y.Z] *)
Definition satisfies (v r : string) : bool :=
  match parse v with
  | None => false
  | Some pv =>
      match r with
      | String "^" x => from_option (caret pv) false (parse x)
      | String "~" x => from_option (tilde_range pv) false (parse x)
      | _ => from_option (same pv) false (parse r)
      end
  end.

Definition collaborators : Collaborators :=
  {| normalizePattern := normalize;
     getExoticResolver := exotic;
     semver_satisfies := satisfies;
     semver_valid := valid |}.

(** The registry table of the package manager: registry name and manifest
    file name. *)
Definition registry_table : list (string * string) :=
  [("npm", "package.json"); ("yarn", "yarn.json")].

Definition join (folder file : string) : string := folder +:+ "/" +:+ file.
End Sample.


(** ** A sample monorepo

    The root [/repo] has the workspaces [a@1.0.0], [b@2.0.0] and [c@3.0.0];
    the command runs in [b]. *)
Module Monorepo.

Definition defaultFlags : Flags :=
  {| tilde := false; exact := false; workspaceRootIsCwd := false; isolated := true |}.

Definition inWorkspaceB : Config :=
  {| cwd := "/repo/packages/b"; lockfileFolder := "/repo";
     workspaceRootFolder := Some "/repo"; save_prefix := "^"; save_exact := false |}.

Definition atRoot : Config :=
  {| cwd := "/repo"; lockfileFolder := "/repo";
     workspaceRootFolder := Some "/repo"; save_prefix := "^"; save_exact := false |}.

Definition package (n v : string) : Manifest :=
  {| name := n; version := v;
     _reference := Some {| registry := "npm"; dependencies := None |};
     buckets := ∅ |}.

Definition rootManifest : Manifest := package "root" "0.0.0".

Definition allWorkspaces : list (string * Workspace) :=
  [("a", {| loc := "/repo/packages/a"; manifest := package "a" "1.0.0" |});
   ("b", {| loc := "/repo/packages/b"; manifest := package "b" "2.0.0" |});
   ("c", {| loc := "/repo/packages/c"; manifest := package "c" "3.0.0" |})].

(** The pattern table once the installer has resolved the requests. *)
Definition resolved : Resolver :=
  {| patterns := {[ "a@1.0.0" := 0%nat; "b@2.0.0" := 1%nat; "c@3.0.0" := 2%nat ]};
     packages := {[ 0%nat := package "a" "1.0.0";
                    1%nat := package "b" "2.0.0";
                    2%nat := package "c" "3.0.0" ]} |}.

Definition unresolved : Resolver := {| patterns := ∅; packages := ∅ |}.

(** A file system holding the manifests of the root and of [b]. *)
Definition world : World :=
  {| registries := Sample.registry_table;
     path_join := Sample.join;
     fs_exists := fun p =>
       String.eqb p "/repo/package.json" || String.eqb p "/repo/packages/b/package.json";
     config_readJson := fun p =>
       if String.eqb p "/repo/package.json" then Ok rootManifest
       else if String.eqb p "/repo/packages/b/package.json" then Ok (package "b" "2.0.0")
       else Throw (CollaboratorError "ENOENT");
     normalizeManifest := fun m _ _ => Ok m;
     config_resolveWorkspaces := fun _ _ => Ok allWorkspaces;
     Install_init := ret [] |}.

(** A file system without any registry manifest. *)
Definition bareWorld : World :=
  {| registries := Sample.registry_table;
     path_join := Sample.join;
     fs_exists := fun _ => false;
     config_readJson := fun _ => Throw (CollaboratorError "ENOENT");
     normalizeManifest := fun m _ _ => Ok m;
     config_resolveWorkspaces := fun _ _ => Ok [];
     Install_init := ret [] |}.

(** The instance as constructed, and after resolution with the siblings of
    [b] discovered. *)
Definition fresh : Isolate :=
  new_Isolate (Some defaultFlags) inWorkspaceB unresolved [] "dependencies".

Definition freshAtRoot : Isolate :=
  new_Isolate (Some defaultFlags) atRoot unresolved [] "dependencies".

Definition afterResolution : Isolate :=
  with_resolver resolved (with_siblingWorkspaces ["a@1.0.0"; "c@3.0.0"] fresh).

(** The same, with [b] already declaring the sibling [a] at [1.0.0]. *)
Definition declaringA : Manifest :=
  {| name := "b"; version := "2.0.0";
     _reference := Some {| registry := "npm"; dependencies := None |};
     buckets := {[ "dependencies" := {[ "a" := "1.0.0" ]} ]} |}.

Definition afterResolutionWithDeclaredA : Isolate :=
  with_resolver {| patterns := patterns resolved;
                   packages := <[1%nat := declaringA]> (packages resolved) |}
                afterResolution.

Definition withTilde (s : Isolate) : Isolate :=
  {| flags := {| tilde := true; exact := exact (flags s);
                 workspaceRootIsCwd := workspaceRootIsCwd (flags s);
                 isolated := isolated (flags s) |};
     config := config s; resolver := resolver s;
     siblingWorkspaces := siblingWorkspaces s;
     rootPatternsToOrigin := rootPatternsToOrigin s;
     flagToOrigin := flagToOrigin s; trace := trace s |}.

Definition lodash : DependencyRequest :=
  {| pattern := "lodash@^4.17.0"; req_registry := "npm"; optional := false |}.
End Monorepo.

(** ** Vocabulary of the statements *)

(** The pattern [name@version] of a member of the workspace set. *)
Definition renderWorkspace (e : string * Workspace) : string :=
  e.1 +:+ "@" +:+ version (manifest e.2).

(** No registry has its manifest file both at the root and in the workspace. *)
Definition noCommonManifest (W : World) (c : Config) : Prop :=
  Forall (fun r => fs_exists W (path_join W (lockfileFolder c) r.2)
                   && fs_exists W (path_join W (cwd c) r.2) = false)
         (registries W).

(** The [fs.exists] probes of a discovery that finds nothing: the root
    location of every registry, and the workspace location where the root
    one exists. *)
Definition probes (W : World) (c : Config) (regs : list (string * string)) : list event :=
  flat_map (fun r =>
              let rootLoc := path_join W (lockfileFolder c) r.2 in
              if fs_exists W rootLoc
              then [FsExists rootLoc; FsExists (path_join W (cwd c) r.2)]
              else [FsExists rootLoc])
           regs.

(** The instance with its trace replaced. *)
Definition with_trace (t : list event) (s : Isolate) : Isolate :=
  {| flags := flags s; config := config s; resolver := resolver s;
     siblingWorkspaces := siblingWorkspaces s;
     rootPatternsToOrigin := rootPatternsToOrigin s;
     flagToOrigin := flagToOrigin s; trace := t |}.

(** The pattern embeds a range that [getPatternVersion] keeps: an explicit,
    non-empty range that the resolved version satisfies or that is exotic. *)
Definition keepsRange (E : Collaborators) (pat : string) (pkg : Manifest) : bool :=
  let np := normalizePattern E pat in
  hasVersion np && truthy (range np)
  && (semver_satisfies E (version pkg) (range np) || getExoticResolver E (range np)).

(** The exactness setting: the flag, the [save-exact] option or an empty
    [save-prefix]. *)
Definition savesExact (this : Isolate) : bool :=
  exact (flags this) || save_exact (config this) || String.eqb (save_prefix (config this)) "".

(** The canonical pattern [preparePatterns] computes for a sibling pattern:
    the resolved name and the version the policy selects. *)
Definition canonicalPattern (E : Collaborators) (s : Isolate) (pat : string)
  : option string :=
  pkg ← getResolvedPattern (resolver s) pat;
  Some (name pkg +:+ "@" +:+ getPatternVersion E s pat pkg).

(** A [replacePattern] call whose two patterns differ, for a sibling. *)
Definition aliasesSibling (sibs : list string) (ev : event) : Prop :=
  exists old new, ev = ReplacePattern old new /\ old ∈ sibs /\ new ≠ old.

(** What [_iterateAddedPackages] passes to its callback for a sibling
    pattern: the dependency type, the package name and the version. *)
Definition addedInfo (E : Collaborators) (s : Isolate) (pat : string)
  : option (string * string * string) :=
  pkg ← getResolvedPattern (resolver s) pat;
  _ ← _reference pkg;
  Some (or_else (originOf (rootPatternsToOrigin s) (keys (rootPatternsToOrigin s)) (name pkg))
                (flagToOrigin s),
        name pkg,
        getPatternVersion E s pat pkg).

(** [manifest[dependencyType][pkgName]] *)
Definition entry (m : Manifest) (dependencyType pkgName : string) : option string :=
  buckets m !! dependencyType ≫= (.!! pkgName).

(** The backlink list [manifest._reference.dependencies], empty when missing. *)
Definition backlinks (m : Manifest) : list string :=
  default [] (_reference m ≫= dependencies).

(** The manifest already records the sibling under its dependency type with
    the version the policy selects. *)
Definition alreadyRecorded (E : Collaborators) (s : Isolate) (m : Manifest) (pat : string)
  : bool :=
  match addedInfo E s pat with
  | Some (t, n, v) => recorded m t n v
  | None => false
  end.

(** How often a pattern occurs in a list. *)
Definition occurrences (pat : string) (l : list string) : nat :=
  length (filter (fun p => p = pat) l).

(** The instance after an assignment through the object reference [i]. *)
Definition with_cell (i : nat) (m : Manifest) (s : Isolate) : Isolate :=
  with_resolver {| patterns := patterns (resolver s);
                   packages := <[i := m]> (packages (resolver s)) |} s.

(** What one call of the folding callback makes of the target manifest. *)
Definition foldStep (m : Manifest) (pat dependencyType pkgName ver : string) : Manifest :=
  let m1 := ensure_bucket dependencyType m in
  if recorded m1 dependencyType pkgName ver then m1
  else match _reference m1 with
       | Some ref => push_dependency pat m1 ref
       | None => m1
       end.

(** ** The isolated install of [b], stage by stage *)
Module Scenario.
(** After [setSiblingWorkspaces] on the fresh instance. *)
Definition discovered : Isolate :=
  (setSiblingWorkspaces Monorepo.world Monorepo.fresh).2.

(** After the installer has resolved the injected requests. *)
Definition resolved : Isolate := with_resolver Monorepo.resolved discovered.

Definition siblings : list string := ["a@1.0.0"; "c@3.0.0"].

Definition b : Manifest := Monorepo.package "b" "2.0.0".

(** What the imported helpers answer on the two sibling patterns. *)
Definition helpersAgree (E : Collaborators) : Prop :=
  getExoticResolver E "a@1.0.0" = false
  /\ getExoticResolver E "c@3.0.0" = false
  /\ normalizePattern E "a@1.0.0"
     = {| hasVersion := true; np_name := "a"; range := "1.0.0" |}
  /\ normalizePattern E "c@3.0.0"
     = {| hasVersion := true; np_name := "c"; range := "3.0.0" |}
  /\ semver_satisfies E "1.0.0" "1.0.0" = true
  /\ semver_satisfies E "3.0.0" "3.0.0" = true
  /\ semver_valid E "1.0.0" = true
  /\ semver_valid E "3.0.0" = true.
End Scenario.

(** ** The earlier revisions

    The first revision excludes from the install the declared dependencies
    that are not workspaces; the second injects the declared dependencies
    that are.  Both walk the dependency objects of the workspace manifest in
    key order.  The list they keep ([nonWorkspaceDeps], [siblingWorkspaceDeps])
    is the field [siblingWorkspaces] of the instance record. *)
Module Earlier.

(** A manifest with its dependency objects: property name, then the
    declared packages in the order [Object.keys] lists them. *)
Record DeclaredManifest := {
  declaredName : string;
  declaredVersion : string;
  fields : list (string * list (string * string))
}.

(** The file system and the installer are those of [World]; the manifest
    readers return the manifests with their dependency objects. *)
Record EarlyWorld := {
  files : World;
  readJson : string -> result DeclaredManifest;
  normalize : DeclaredManifest -> string -> bool -> result DeclaredManifest;
  resolveWorkspaces : string -> DeclaredManifest -> result (list (string * Workspace))
}.

Definition depTypes : list string :=
  ["dependencies"; "devDependencies"; "optionalDependencies"].

(** [_getAllWorkspaceDeps(manifest)], the same in both revisions. *)
Definition _getAllWorkspaceDeps (m : DeclaredManifest) : list string :=
  fold_left (fun result type =>
               match get (fields m) type with
               | None => result
               | Some deps => result ++ keys deps
               end)
            depTypes [].

Section Readers.
Variable W : EarlyWorld.

Definition readManifest (path folder : string) (isRoot : bool) : M DeclaredManifest :=
  emit (ReadJson path) ;;;
  raw <- lift (readJson W path) ;;
  emit (NormalizeManifest folder isRoot) ;;;
  lift (normalize W raw folder isRoot).

(** What both revisions do between the registry loop and their filter: read
    and normalize the two manifests and resolve the workspace set. *)
Definition readBoth (rootLoc workspaceLoc : string)
  : M (DeclaredManifest * list (string * Workspace)) :=
  s <- this ;;
  rootManifest <- readManifest rootLoc (lockfileFolder (config s)) true ;;
  workspaceManifest <- readManifest workspaceLoc (cwd (config s)) false ;;
  emit (ResolveWorkspaces (lockfileFolder (config s))) ;;;
  allWorkspaces <- lift (resolveWorkspaces W (lockfileFolder (config s)) rootManifest) ;;
  ret (workspaceManifest, allWorkspaces).
End Readers.
End Earlier.

(** The second revision (the first file of src/unnamed/part_000). *)
Module RevisionTwo.
Section Methods.
Variable W : Earlier.EarlyWorld.

(** [_setSiblingDeps()] *)
Definition _setSiblingDeps : M unit :=
  set_siblingWorkspaces [] ;;;
  found <- findRegistry (Earlier.files W) (registries (Earlier.files W)) ;;
  match found with
  | None => emit (ConsoleWarn "no sibling workspaces")
  | Some (rootLoc, workspaceLoc) =>
      both <- Earlier.readBoth W rootLoc workspaceLoc ;;
      let '(workspaceManifest, allWorkspaces) := both in
      let allWorkspaceNames := keys allWorkspaces in
      let declared := filter (fun w => w ∈ allWorkspaceNames)
                             (Earlier._getAllWorkspaceDeps workspaceManifest) in
      set_siblingWorkspaces declared ;;;
      sibs <- lift (map_result (workspacePattern allWorkspaces) declared) ;;
      set_siblingWorkspaces sibs
  end.

(** [init()] *)
Definition init : M (list string) :=
  s <- this ;;
  if cwdIsWorkspaceRoot (config s) then
    throw (MessageError (Lang "workspacesIsolateRootCheck" []))
  else
    _setSiblingDeps ;;;
    emit InstallInit ;;;
    pats <- Install_init (Earlier.files W) ;;
    ret pats.
End Methods.

(** [prepareRequests(requests)] has the text of the last revision. *)
Definition prepareRequests (requests : list DependencyRequest)
  : M (list DependencyRequest) := prepareRequests requests.

(** [preparePatterns(patterns)]: [patterns.concat(this.siblingWorkspaceDeps)].
    [concat] spreads an array and appends anything else as one element, so
    an unassigned list adds a single [undefined] ([None]). *)
Definition preparePatterns (pats : list string) : M (list (option string)) :=
  s <- this ;;
  ret (map Some pats ++ match siblingWorkspaces s with
                        | Some sibs => map Some sibs
                        | None => [None]
                        end).
End RevisionTwo.

(** The first revision (src/cli/commands/isolate.js); its [bailout] is in
    [FirstRevision]. *)
Module RevisionOne.
Section Methods.
Variable W : Earlier.EarlyWorld.

(** [setNonWorkspaceDeps()] *)
Definition setNonWorkspaceDeps : M unit :=
  set_siblingWorkspaces [] ;;;
  found <- findRegistry (Earlier.files W) (registries (Earlier.files W)) ;;
  match found with
  | None => emit (ConsoleWarn "no sibling workspaces")
  | Some (rootLoc, workspaceLoc) =>
      both <- Earlier.readBoth W rootLoc workspaceLoc ;;
      let '(workspaceManifest, resolved) := both in
      let allWorkspaces := keys resolved in
      set_siblingWorkspaces
        (filter (fun w => w ∉ allWorkspaces)
                (Earlier._getAllWorkspaceDeps workspaceManifest))
  end.

(** [init()] *)
Definition init : M (list string) :=
  s <- this ;;
  if cwdIsWorkspaceRoot (config s) then
    throw (MessageError (Lang "workspacesIsolateRootCheck" []))
  else
    setNonWorkspaceDeps ;;;
    emit InstallInit ;;;
    pats <- Install_init (Earlier.files W) ;;
    ret pats.
End Methods.
End RevisionOne.

(** ** Vocabulary of the further statements *)

(** [s'] differs from [s] at most in the sibling list and by events added
    to the trace. *)
Definition onlyLogsAndSiblings (s s' : Isolate) : Prop :=
  flags s' = flags s
  /\ config s' = config s
  /\ resolver s' = resolver s
  /\ rootPatternsToOrigin s' = rootPatternsToOrigin s
  /\ flagToOrigin s' = flagToOrigin s
  /\ exists evs, trace s' = trace s ++ evs.

(** The [replacePattern] calls for the sibling patterns whose canonical
    pattern differs, in order. *)
Definition aliases (pairs : list (string * string)) : list event :=
  omap (fun pq => if String.eqb pq.2 pq.1 then None
                  else Some (ReplacePattern pq.1 pq.2))
       pairs.

(** The origin recorded for the last root pattern of a package name. *)
Definition lastOrigin (origins : list (string * string)) (pkgName : string)
  : option string :=
  snd <$> last (filter (fun e => startsWith (pkgName +:+ "@") e.1 = true) origins).

(** The text handed to the invariant that every sibling pattern is in the
    list, before the package formats it. *)
Definition expectAdded (pat : string) (pats : list string) : string :=
  "expect added pattern '" +:+ pat +:+ "' in the list: " +:+ toString pats.

(** The pattern [name@version] of a declared dependency that is a member of
    the workspace set; nothing for one that is not. *)
Definition declaredSibling (allWorkspaces : list (string * Workspace)) (w : string)
  : option string :=
  (fun ws => w +:+ "@" +:+ version (manifest ws)) <$> get allWorkspaces w.

(** Both manifests can be read and normalized and the workspaces resolved. *)
Definition readable (W : Earlier.EarlyWorld) (c : Config) (rootLoc workspaceLoc : string)
    (workspaceManifest : Earlier.DeclaredManifest)
    (allWorkspaces : list (string * Workspace)) : Prop :=
  exists rawRoot rootManifest rawWorkspace,
    Earlier.readJson W rootLoc = Ok rawRoot
    /\ Earlier.normalize W rawRoot (lockfileFolder c) true = Ok rootManifest
    /\ Earlier.readJson W workspaceLoc = Ok rawWorkspace
    /\ Earlier.normalize W rawWorkspace (cwd c) false = Ok workspaceManifest
    /\ Earlier.resolveWorkspaces W (lockfileFolder c) rootManifest = Ok allWorkspaces.

(** A monorepo whose workspace [b] declares dependencies. *)
Module EarlyRepo.
Definition b : Earlier.DeclaredManifest :=
  {| Earlier.declaredName := "b"; Earlier.declaredVersion := "2.0.0";
     Earlier.fields :=
       [("dependencies", [("a", "^1.0.0"); ("lodash", "^4.17.0")]);
        ("devDependencies", [("jest", "^29.0.0"); ("c", "*")]);
        ("peerDependencies", [("react", "*")])] |}.

Definition root : Earlier.DeclaredManifest :=
  {| Earlier.declaredName := "root"; Earlier.declaredVersion := "0.0.0";
     Earlier.fields := [] |}.

Definition world : Earlier.EarlyWorld :=
  {| Earlier.files := Monorepo.world;
     Earlier.readJson := fun p =>
       if String.eqb p "/repo/package.json" then Ok root
       else if String.eqb p "/repo/packages/b/package.json" then Ok b
       else Throw (CollaboratorError "ENOENT");
     Earlier.normalize := fun m _ _ => Ok m;
     Earlier.resolveWorkspaces := fun _ _ => Ok Monorepo.allWorkspaces |}.

Definition bareWorld : Earlier.EarlyWorld :=
  {| Earlier.files := Monorepo.bareWorld;
     Earlier.readJson := fun _ => Throw (CollaboratorError "ENOENT");
     Earlier.normalize := fun m _ _ => Ok m;
     Earlier.resolveWorkspaces := fun _ _ => Ok [] |}.
End EarlyRepo.

(** * Properties *)

(** ** Monad laws used below *)

Lemma bind_this {B} (k : Isolate -> M B) s : bind this k s = k s s.
Proof. reflexivity. Qed.

(** Opens a method that starts by reading [this.siblingWorkspaces], whose
    value [Hs] gives. *)
Ltac with_siblings Hs :=
  unfold bind, this; rewrite Hs; cbn [iterable ret].

(** ** Request injection *)

Lemma fold_left_push {A B} (f : A -> B) (l : list A) (acc : list B) :
  fold_left (fun acc x => acc ++ [f x]) l acc = acc ++ map f l.
Proof.
  revert acc. induction l as [|x l IH]; intros acc; simpl.
  - by rewrite app_nil_r.
  - by rewrite IH, <- app_assoc.
Qed.

(** C7: [prepareRequests] returns the base requests, unchanged and in order,
    followed by one request per sibling pattern in discovery order, each for
    the registry [npm] and not optional; it changes nothing, so running it
    again on the same inputs gives the same list. *)
Theorem prepareRequests_appends_siblings
    (s : Isolate) (requests : list DependencyRequest) (sibs : list string) :
  siblingWorkspaces s = Some sibs ->
  let injected := map siblingRequest sibs in
  prepareRequests requests s = (Ok (requests ++ injected), s)
  /\ take (length requests) (requests ++ injected) = requests
  /\ length injected = length sibs
  /\ map pattern injected = sibs
  /\ Forall (fun r => req_registry r = "npm" /\ optional r = false) injected
  /\ (forall out s', prepareRequests requests s = (out, s') ->
        prepareRequests requests s' = (out, s')).
Proof.
  intros Hs injected.
  assert (Hrun : prepareRequests requests s = (Ok (requests ++ injected), s)).
  { unfold prepareRequests. with_siblings Hs. by rewrite fold_left_push. }
  split_and!.
  - exact Hrun.
  - by rewrite take_app_length.
  - apply length_map.
  - subst injected. rewrite map_map. simpl. apply map_id.
  - subst injected. apply Forall_map, Forall_forall. by intros.
  - intros out s' H. rewrite Hrun in H. by inversion H; subst.
Qed.

Lemma prepareRequests_appends_siblings_witness :
  prepareRequests [Monorepo.lodash] Monorepo.afterResolution
  = (Ok [Monorepo.lodash; siblingRequest "a@1.0.0"; siblingRequest "c@3.0.0"],
     Monorepo.afterResolution).
Proof.
  exact (proj1 (prepareRequests_appends_siblings Monorepo.afterResolution
                  [Monorepo.lodash] ["a@1.0.0"; "c@3.0.0"] eq_refl)).
Defined.

(** ** The integrity bailout *)

(** C10: [bailout] answers [false] for every pattern list and every workspace
    layout, in every state, in both revisions that define it; it reads and
    changes nothing. *)
Theorem bailout_never
    (s : Isolate) (pats : list string) (workspaceLayout : option WorkspaceLayout) :
  bailout pats workspaceLayout s = (Ok false, s)
  /\ FirstRevision.bailout pats workspaceLayout s = (Ok false, s).
Proof. split; reflexivity. Qed.

(** ** The degraded paths of folding *)

Lemma getStrictResolvedPattern_unknown (r : Resolver) (p : string) :
  getResolvedPattern r p = None ->
  exists e, getStrictResolvedPattern r p = Throw e.
Proof.
  unfold getResolvedPattern, getStrictResolvedPattern.
  destruct (patterns r !! p) as [i|]; simpl; [|eauto].
  intros ->. eauto.
Qed.

(** C8: [preparePatternsForLinking] hands its patterns back unchanged when
    the target is the root, touching nothing, and when the target is not the
    root and its own package [name@version] is not in the pattern table: then
    it only reports the [unknownPackage] warning, and the pattern table, the
    packages and the sibling list stay as they were. *)
Theorem preparePatternsForLinking_degraded
    (E : Collaborators) (s : Isolate) (pats : list string) (cwdManifest : Manifest)
    (cwdIsRoot : bool) :
  let cwdPackage := name cwdManifest +:+ "@" +:+ version cwdManifest in
  cwdIsRoot = true \/ getResolvedPattern (resolver s) cwdPackage = None ->
  exists s',
    preparePatternsForLinking E pats cwdManifest cwdIsRoot s = (Ok pats, s')
    /\ s' = (if cwdIsRoot then s
             else with_event (ReporterWarn (Lang "unknownPackage" [cwdPackage])) s)
    /\ resolver s' = resolver s
    /\ siblingWorkspaces s' = siblingWorkspaces s
    /\ trace s' = trace s ++ (if cwdIsRoot then []
                              else [ReporterWarn (Lang "unknownPackage" [cwdPackage])]).
Proof.
  intros cwdPackage H. destruct cwdIsRoot.
  - exists s. unfold preparePatternsForLinking, ret.
    by rewrite app_nil_r.
  - destruct H as [H|H]; [discriminate|].
    apply getStrictResolvedPattern_unknown in H as [e He].
    eexists. split; [|split_and!; reflexivity].
    unfold preparePatternsForLinking. rewrite bind_this.
    fold cwdPackage. rewrite He. reflexivity.
Qed.

Lemma preparePatternsForLinking_degraded_witness :
  (exists s',
     preparePatternsForLinking Sample.collaborators ["a@1.0.0"; "c@3.0.0"]
       (Monorepo.package "b" "2.0.0") true Monorepo.afterResolution
     = (Ok ["a@1.0.0"; "c@3.0.0"], s')
     /\ s' = Monorepo.afterResolution)
  /\ (exists s',
        preparePatternsForLinking Sample.collaborators ["a@1.0.0"; "c@3.0.0"]
          (Monorepo.package "b" "9.9.9") false Monorepo.afterResolution
        = (Ok ["a@1.0.0"; "c@3.0.0"], s')
        /\ resolver s' = resolver Monorepo.afterResolution
        /\ trace s' = [ReporterWarn (Lang "unknownPackage" ["b@9.9.9"])]).
Proof.
  split.
  - destruct (preparePatternsForLinking_degraded Sample.collaborators
                Monorepo.afterResolution ["a@1.0.0"; "c@3.0.0"]
                (Monorepo.package "b" "2.0.0") true (or_introl eq_refl))
      as (s' & Hrun & Hs' & _).
    exists s'. split; assumption.
  - destruct (preparePatternsForLinking_degraded Sample.collaborators
                Monorepo.afterResolution ["a@1.0.0"; "c@3.0.0"]
                (Monorepo.package "b" "9.9.9") false (or_intror eq_refl))
      as (s' & Hrun & _ & Hres & _ & Htr).
    exists s'. split_and!; assumption.
Defined.

(** ** The root check of [init] *)

(** C5: when the working directory is the workspace root, [init] throws the
    [workspacesIsolateRootCheck] message error at once: the instance is left
    exactly as it was, and its trace shows no probe of the file system, no
    manifest read and no call of the installer. *)
Theorem init_at_root_fails_fast (W : World) (s : Isolate) (root : string) :
  workspaceRootFolder (config s) = Some root ->
  root <> "" ->
  cwd (config s) = root ->
  init W s = (Throw (MessageError (Lang "workspacesIsolateRootCheck" [])), s).
Proof.
  intros Hroot Hne Hcwd.
  unfold init. rewrite bind_this.
  unfold cwdIsWorkspaceRoot. rewrite Hroot, Hcwd.
  assert (truthy root = true) as ->.
  { unfold truthy. destruct (String.eqb_spec root ""); [contradiction|reflexivity]. }
  by rewrite String.eqb_refl.
Qed.

Lemma init_at_root_fails_fast_witness :
  init Monorepo.world Monorepo.freshAtRoot
  = (Throw (MessageError (Lang "workspacesIsolateRootCheck" [])), Monorepo.freshAtRoot).
Proof.
  apply (init_at_root_fails_fast Monorepo.world Monorepo.freshAtRoot "/repo");
    [reflexivity | discriminate | reflexivity].
Defined.

(** ** Sibling discovery *)

Lemma with_trace_id (s : Isolate) : with_trace (trace s) s = s.
Proof. by destruct s. Qed.

Lemma with_event_trace (ev : event) (t : list event) (s : Isolate) :
  with_event ev (with_trace t s) = with_trace (t ++ [ev]) s.
Proof. reflexivity. Qed.

(** The registry loop only probes the file system: whatever it answers, the
    instance differs from the one it started with by the trace alone. *)
Lemma findRegistry_frame_from (W : World) (regs : list (string * string)) (s : Isolate)
    (t : list event) :
  exists evs found,
    findRegistry W regs (with_trace t s) = (Ok found, with_trace (t ++ evs) s).
Proof.
  revert t. induction regs as [|[r filename] regs IH]; intros t.
  - exists [], None. by rewrite app_nil_r.
  - cbn [findRegistry]. rewrite bind_this.
    unfold exists_ at 1. unfold bind at 1. unfold bind at 1. unfold emit.
    rewrite with_event_trace. unfold ret at 1.
    cbn [config with_trace].
    destruct (fs_exists W (path_join W (lockfileFolder (config s)) filename)); cbn [negb].
    + unfold exists_ at 1. unfold bind at 1. unfold bind at 1. unfold emit.
      rewrite with_event_trace. unfold ret at 1.
      destruct (fs_exists W (path_join W (cwd (config s)) filename)); cbn [negb].
      * eexists _, _. unfold ret. f_equal. f_equal. by rewrite <- !app_assoc.
      * destruct (IH ((t ++ [FsExists (path_join W (lockfileFolder (config s)) filename)])
                        ++ [FsExists (path_join W (cwd (config s)) filename)]))
          as (evs & found & ->).
        eexists _, found. f_equal. f_equal. by rewrite <- !app_assoc.
    + destruct (IH (t ++ [FsExists (path_join W (lockfileFolder (config s)) filename)]))
        as (evs & found & ->).
      eexists _, found. f_equal. f_equal. by rewrite <- !app_assoc.
Qed.

Lemma findRegistry_frame (W : World) (regs : list (string * string)) (s : Isolate) :
  exists evs found,
    findRegistry W regs s = (Ok found, with_trace (trace s ++ evs) s).
Proof.
  destruct (findRegistry_frame_from W regs s (trace s)) as (evs & found & H).
  rewrite with_trace_id in H. eauto.
Qed.

Lemma findRegistry_miss_from (W : World) (regs : list (string * string)) (s : Isolate)
    (t : list event) :
  Forall (fun r => fs_exists W (path_join W (lockfileFolder (config s)) r.2)
                   && fs_exists W (path_join W (cwd (config s)) r.2) = false) regs ->
  findRegistry W regs (with_trace t s)
  = (Ok None, with_trace (t ++ probes W (config s) regs) s).
Proof.
  revert t. induction regs as [|[r filename] regs IH]; intros t Hall.
  - cbn. by rewrite app_nil_r.
  - apply Forall_cons_1 in Hall as [Hhere Hall]. cbn [snd] in Hhere.
    cbn [findRegistry probes flat_map snd]. rewrite bind_this.
    unfold exists_ at 1. unfold bind at 1. unfold bind at 1. unfold emit.
    rewrite with_event_trace. unfold ret at 1.
    cbn [config with_trace].
    destruct (fs_exists W (path_join W (lockfileFolder (config s)) filename)); cbn [negb].
    + cbn [andb] in Hhere.
      unfold exists_ at 1. unfold bind at 1. unfold bind at 1. unfold emit.
      rewrite with_event_trace. unfold ret at 1.
      rewrite Hhere. cbn [negb].
      rewrite IH by done. unfold probes. f_equal. f_equal.
      by rewrite <- !app_assoc.
    + rewrite IH by done. unfold probes. f_equal. f_equal.
      by rewrite <- !app_assoc.
Qed.

Lemma get_of_entry {A} (o : list (string * A)) (k : string) (v : A) :
  NoDup (keys o) -> (k, v) ∈ o -> get o k = Some v.
Proof.
  unfold keys. induction o as [|[k' v'] o IH]; intros Hnd Hin.
  - by apply elem_of_nil in Hin.
  - cbn in Hnd. apply NoDup_cons in Hnd as [Hfresh Hnd].
    cbn [get]. destruct (String.eqb_spec k' k) as [->|Hne].
    + apply elem_of_cons in Hin as [Heq|Hin]; [congruence|].
      exfalso. apply Hfresh. apply list_elem_of_fmap. by exists (k, v).
    + apply elem_of_cons in Hin as [Heq|Hin]; [congruence|]. by apply IH.
Qed.

Lemma map_result_ok {A B} (f : A -> result B) (g : A -> B) (l : list A) :
  Forall (fun x => f x = Ok (g x)) l -> map_result f l = Ok (map g l).
Proof.
  induction 1 as [|x l Hx _ IH]; cbn; [done|]. by rewrite Hx, IH.
Qed.

Lemma filter_keys {A} (P : string -> Prop) `{!forall k, Decision (P k)}
    (o : list (string * A)) :
  filter P (keys o) = keys (filter (fun e => P e.1) o).
Proof.
  unfold keys. induction o as [|[k v] o IH]; [done|].
  cbn [fmap list_fmap]. rewrite !filter_cons. cbn [fst].
  destruct (decide (P k)); cbn; by rewrite IH.
Qed.

(** What the filter-and-map over [Object.keys] computes: the members other
    than the current one, in order, each with its own version. *)
Lemma siblingPatterns_spec (allWorkspaces : list (string * Workspace)) (current : string) :
  NoDup (keys allWorkspaces) ->
  siblingPatterns allWorkspaces current
  = Ok (map renderWorkspace (filter (fun e => e.1 ≠ current) allWorkspaces)).
Proof.
  intros Hnd. unfold siblingPatterns.
  rewrite (filter_keys (fun w => w ≠ current)). unfold keys.
  rewrite (map_result_ok _ (fun w =>
             w +:+ "@" +:+ from_option (fun ws => version (manifest ws)) ""
                             (get allWorkspaces w))).
  - f_equal. rewrite <- list_fmap_compose. apply map_ext_in.
    intros [w ws] Hin. apply list_elem_of_In, list_elem_of_filter in Hin as [_ Hin].
    unfold renderWorkspace. cbn. by rewrite (get_of_entry _ _ _ Hnd Hin).
  - apply Forall_forall. intros w Hin.
    apply list_elem_of_fmap in Hin as ([w' ws] & -> & Hin).
    apply list_elem_of_filter in Hin as [_ Hin]. cbn [fst].
    unfold workspacePattern. by rewrite (get_of_entry _ _ _ Hnd Hin).
Qed.

Lemma filter_keeps_all {A} (P : A -> Prop) `{!forall x, Decision (P x)} (l : list A) :
  (forall x, x ∈ l -> P x) -> filter P l = l.
Proof.
  induction l as [|x l IH]; intros Hall; [done|].
  rewrite filter_cons_True by (apply Hall; left).
  f_equal. apply IH. intros y Hy. apply Hall. by right.
Qed.

Lemma filter_out_key_length {A} (o : list (string * A)) (k : string) :
  NoDup (keys o) -> k ∈ keys o ->
  length (filter (fun e => e.1 ≠ k) o) = (length o - 1)%nat.
Proof.
  unfold keys. induction o as [|[k' v] o IH]; intros Hnd Hin.
  - by apply elem_of_nil in Hin.
  - cbn in Hnd, Hin. apply NoDup_cons in Hnd as [Hfresh Hnd].
    rewrite filter_cons. cbn [fst].
    destruct (decide (k' ≠ k)) as [Hne|Heq].
    + apply elem_of_cons in Hin as [Heq|Hin]; [congruence|].
      cbn. rewrite IH by done.
      destruct o; [by apply elem_of_nil in Hin|]. cbn. lia.
    + assert (k' = k) as -> by (destruct (decide (k' = k)); [done|contradiction]).
      cbn. rewrite Nat.sub_0_r. f_equal.
      apply filter_keeps_all. intros [k'' v''] Hin' Heq'. cbn in Heq'. subst k''.
      apply Hfresh. apply list_elem_of_fmap. by exists (k, v'').
Qed.

(** C3: once both manifests are read and the workspace set is resolved,
    [setSiblingWorkspaces] stores exactly the members of the set other than
    the current workspace, in the order of the set, each as
    [name@version] with its own version: no other member is left out and the
    current one is not among them. *)
Theorem setSiblingWorkspaces_all_but_current
    (W : World) (s : Isolate) (rootLoc workspaceLoc : string)
    (rawRoot rootManifest rawWorkspace workspaceManifest : Manifest)
    (allWorkspaces : list (string * Workspace)) :
  (findRegistry W (registries W) s).1 = Ok (Some (rootLoc, workspaceLoc)) ->
  config_readJson W rootLoc = Ok rawRoot ->
  normalizeManifest W rawRoot (lockfileFolder (config s)) true = Ok rootManifest ->
  config_readJson W workspaceLoc = Ok rawWorkspace ->
  normalizeManifest W rawWorkspace (cwd (config s)) false = Ok workspaceManifest ->
  config_resolveWorkspaces W (lockfileFolder (config s)) rootManifest = Ok allWorkspaces ->
  NoDup (keys allWorkspaces) ->
  let current := name workspaceManifest in
  let siblings := filter (fun e => e.1 ≠ current) allWorkspaces in
  exists s',
    setSiblingWorkspaces W s = (Ok tt, s')
    /\ siblingWorkspaces s' = Some (map renderWorkspace siblings)
    /\ (forall e, e ∈ siblings <-> e ∈ allWorkspaces /\ e.1 ≠ current)
    /\ (current ∈ keys allWorkspaces -> length siblings = (length allWorkspaces - 1)%nat).
Proof.
  intros Hfind HreadRoot HnormRoot HreadWs HnormWs Hresolve Hnd current siblings.
  destruct (findRegistry_frame W (registries W) s) as (evs & found & Hrun).
  rewrite Hrun in Hfind. cbn in Hfind. injection Hfind as ->.
  eexists. split_and!.
  - unfold setSiblingWorkspaces. unfold bind at 1. rewrite Hrun.
    rewrite bind_this. cbn [config with_trace].
    unfold readManifest, bind, emit, lift, set_siblingWorkspaces. cbn [config with_event].
    rewrite HreadRoot, HnormRoot, HreadWs, HnormWs, Hresolve.
    rewrite siblingPatterns_spec by done. reflexivity.
  - reflexivity.
  - intros e. subst siblings. rewrite list_elem_of_filter. tauto.
  - intros Hin. by apply filter_out_key_length.
Qed.

Lemma setSiblingWorkspaces_all_but_current_witness :
  exists s',
    setSiblingWorkspaces Monorepo.world Monorepo.fresh = (Ok tt, s')
    /\ siblingWorkspaces s' = Some ["a@1.0.0"; "c@3.0.0"].
Proof.
  destruct (setSiblingWorkspaces_all_but_current Monorepo.world Monorepo.fresh
              "/repo/package.json" "/repo/packages/b/package.json"
              Monorepo.rootManifest Monorepo.rootManifest
              (Monorepo.package "b" "2.0.0") (Monorepo.package "b" "2.0.0")
              Monorepo.allWorkspaces)
    as (s' & Hrun & Hsibs & _).
  - reflexivity.
  - reflexivity.
  - reflexivity.
  - reflexivity.
  - reflexivity.
  - reflexivity.
  - apply (bool_decide_unpack _). vm_compute. reflexivity.
  - exists s'. split; [exact Hrun|]. rewrite Hsibs. reflexivity.
Defined.

(** ** Discovery miss *)

(** With an empty sibling list both hooks hand their argument back: this is
    what a degraded, non-isolated install needs from them. *)
Lemma hooks_on_empty_siblings (E : Collaborators) (s : Isolate)
    (requests : list DependencyRequest) (pats : list string) :
  siblingWorkspaces s = Some [] ->
  prepareRequests requests s = (Ok requests, s)
  /\ preparePatterns E pats s = (Ok pats, s).
Proof.
  intros Hs. unfold prepareRequests, preparePatterns.
  split; with_siblings Hs; reflexivity.
Qed.

(** C6, as the code behaves: when no registry has its manifest file at both
    locations, [setSiblingWorkspaces] probes the file system, warns on the
    console and returns normally, but it assigns nothing.  On an instance
    whose [siblingWorkspaces] was never assigned the field stays undefined,
    and the hooks that iterate it, [prepareRequests] and [preparePatterns],
    throw a TypeError instead of behaving as on the empty list. *)
Theorem discovery_miss_leaves_siblings_undefined
    (E : Collaborators) (W : World) (s : Isolate)
    (requests : list DependencyRequest) (pats : list string) :
  siblingWorkspaces s = None ->
  noCommonManifest W (config s) ->
  exists s',
    setSiblingWorkspaces W s = (Ok tt, s')
    /\ s' = with_trace (trace s ++ probes W (config s) (registries W)
                                ++ [ConsoleWarn "no sibling workspaces"]) s
    /\ siblingWorkspaces s' = None
    /\ prepareRequests requests s'
       = (Throw (TypeError "this.siblingWorkspaces is not iterable"), s')
    /\ preparePatterns E pats s'
       = (Throw (TypeError "this.siblingWorkspaces is not iterable"), s').
Proof.
  intros Hs Hmiss.
  pose proof (findRegistry_miss_from W (registries W) s (trace s) Hmiss) as Hrun.
  rewrite with_trace_id in Hrun.
  eexists. split_and!.
  - unfold setSiblingWorkspaces. unfold bind at 1. rewrite Hrun.
    unfold emit. rewrite with_event_trace. by rewrite <- app_assoc.
  - reflexivity.
  - exact Hs.
  - unfold prepareRequests, bind, this. cbn [siblingWorkspaces with_trace].
    by rewrite Hs.
  - unfold preparePatterns, bind, this. cbn [siblingWorkspaces with_trace].
    by rewrite Hs.
Qed.

Lemma discovery_miss_leaves_siblings_undefined_witness :
  exists s',
    setSiblingWorkspaces Monorepo.bareWorld Monorepo.fresh = (Ok tt, s')
    /\ trace s' = [FsExists "/repo/package.json"; FsExists "/repo/yarn.json";
                   ConsoleWarn "no sibling workspaces"]
    /\ prepareRequests [Monorepo.lodash] s'
       = (Throw (TypeError "this.siblingWorkspaces is not iterable"), s').
Proof.
  destruct (discovery_miss_leaves_siblings_undefined Sample.collaborators
              Monorepo.bareWorld Monorepo.fresh [Monorepo.lodash] [])
    as (s' & Hrun & Hs' & _ & Hreq & _).
  - reflexivity.
  - repeat constructor.
  - exists s'. split_and!; [exact Hrun | by rewrite Hs' | exact Hreq].
Defined.

(** ** The version policy *)

(** The four outcomes of [getPatternVersion], by the branch taken. *)
Lemma getPatternVersion_exotic (E : Collaborators) (this : Isolate) (pat : string)
    (pkg : Manifest) :
  getExoticResolver E pat = true -> truthy pat = true -> semver_valid E pat = false ->
  getPatternVersion E this pat pkg = pat.
Proof.
  intros Hex Htr Hval. unfold getPatternVersion. rewrite Hex. cbn.
  by rewrite Htr, Hval.
Qed.

Lemma getPatternVersion_kept_range (E : Collaborators) (this : Isolate) (pat : string)
    (pkg : Manifest) :
  getExoticResolver E pat = false -> keepsRange E pat pkg = true ->
  getPatternVersion E this pat pkg
  = if semver_valid E (range (normalizePattern E pat))
    then (if tilde (flags this) then "~" else "") +:+ version pkg
    else range (normalizePattern E pat).
Proof.
  intros Hex Hkeep. unfold getPatternVersion. unfold keepsRange in Hkeep.
  rewrite Hex, Hkeep. cbn.
  assert (truthy (range (normalizePattern E pat)) = true) as ->.
  { apply andb_prop in Hkeep as [Hkeep _]. by apply andb_prop in Hkeep as [_ ?]. }
  cbn. destruct (semver_valid E (range (normalizePattern E pat))); [|done].
  by destruct (tilde (flags this)).
Qed.

Lemma getPatternVersion_computed (E : Collaborators) (this : Isolate) (pat : string)
    (pkg : Manifest) :
  getExoticResolver E pat = false -> keepsRange E pat pkg = false ->
  getPatternVersion E this pat pkg
  = (if tilde (flags this) then "~"
     else if savesExact this then ""
     else save_prefix (config this)) +:+ version pkg.
Proof.
  intros Hex Hkeep. unfold getPatternVersion. unfold keepsRange in Hkeep.
  rewrite Hex, Hkeep. cbn.
  destruct (tilde (flags this)); [done|].
  fold (savesExact this). unfold savesExact.
  destruct (String.eqb (save_prefix (config this)) "") eqn:Hempty.
  - by rewrite !orb_true_r.
  - rewrite !orb_false_r.
    destruct (exact (flags this) || save_exact (config this)); [done|].
    unfold or_else, truthy. by rewrite Hempty.
Qed.

(** C4, amended: for a pattern that is not exotic and embeds no kept range,
    [tilde=false], [exact=false], no [save-exact], prefix [^] and resolved
    version [2.3.1] give [^2.3.1], and [exact=true] gives [2.3.1]; a pattern
    recognised as exotic comes back unchanged; an embedded range that the
    resolved version satisfies, or that is exotic, is kept verbatim when it
    is not a concrete version, and when it is one the result is the resolved
    version, without prefix unless the tilde flag is set, which prefixes
    [~]. *)
Theorem getPatternVersion_policy
    (E : Collaborators) (this : Isolate) (pat : string) (pkg : Manifest) :
  let kept := range (normalizePattern E pat) in
  (getExoticResolver E pat = false -> keepsRange E pat pkg = false ->
   tilde (flags this) = false -> exact (flags this) = false ->
   save_exact (config this) = false -> save_prefix (config this) = "^" ->
   version pkg = "2.3.1" ->
   getPatternVersion E this pat pkg = "^2.3.1")
  /\ (getExoticResolver E pat = false -> keepsRange E pat pkg = false ->
      tilde (flags this) = false -> exact (flags this) = true ->
      version pkg = "2.3.1" ->
      getPatternVersion E this pat pkg = "2.3.1")
  /\ (getExoticResolver E pat = true -> pat <> "" -> semver_valid E pat = false ->
      getPatternVersion E this pat pkg = pat)
  /\ (getExoticResolver E pat = false -> keepsRange E pat pkg = true ->
      semver_valid E kept = false ->
      getPatternVersion E this pat pkg = kept)
  /\ (getExoticResolver E pat = false -> keepsRange E pat pkg = true ->
      semver_valid E kept = true ->
      getPatternVersion E this pat pkg
      = (if tilde (flags this) then "~" else "") +:+ version pkg).
Proof.
  intros kept. split_and!.
  - intros Hex Hkeep Ht He Hse Hp Hv.
    rewrite getPatternVersion_computed by done.
    unfold savesExact. by rewrite Ht, He, Hse, Hp, Hv.
  - intros Hex Hkeep Ht He Hv.
    rewrite getPatternVersion_computed by done.
    unfold savesExact. by rewrite Ht, He, Hv.
  - intros Hex Hne Hval. apply getPatternVersion_exotic; [done| |done].
    unfold truthy. by destruct (String.eqb_spec pat "").
  - intros Hex Hkeep Hval.
    rewrite getPatternVersion_kept_range by done. fold kept. by rewrite Hval.
  - intros Hex Hkeep Hval.
    rewrite getPatternVersion_kept_range by done. fold kept. by rewrite Hval.
Qed.

Lemma getPatternVersion_policy_witness :
  let s := Monorepo.afterResolution in
  let pkg := Monorepo.package "sibling" "2.3.1" in
  getPatternVersion Sample.collaborators s "sibling" pkg = "^2.3.1"
  /\ getPatternVersion Sample.collaborators s "git+https://host/sibling.git" pkg
     = "git+https://host/sibling.git"
  /\ getPatternVersion Sample.collaborators s "sibling@^2.0.0" pkg = "^2.0.0"
  /\ getPatternVersion Sample.collaborators s "sibling@2.3.1" pkg = "2.3.1"
  /\ getPatternVersion Sample.collaborators (Monorepo.withTilde s) "sibling@2.3.1" pkg
     = "~2.3.1".
Proof.
  intros s pkg. split_and!.
  - apply (getPatternVersion_policy Sample.collaborators s "sibling" pkg); reflexivity.
  - apply (getPatternVersion_policy Sample.collaborators s
             "git+https://host/sibling.git" pkg); [reflexivity|discriminate|reflexivity].
  - apply (getPatternVersion_policy Sample.collaborators s "sibling@^2.0.0" pkg);
      reflexivity.
  - apply (proj2 (proj2 (proj2 (proj2
             (getPatternVersion_policy Sample.collaborators s "sibling@2.3.1" pkg)))));
      reflexivity.
  - apply (proj2 (proj2 (proj2 (proj2
             (getPatternVersion_policy Sample.collaborators (Monorepo.withTilde s)
                "sibling@2.3.1" pkg)))));
      reflexivity.
Defined.

(** C4, the claim as stated fails: with the tilde flag set, the pattern
    [a@1.0.0] embeds the concrete version [1.0.0], which the resolved version
    satisfies, and yet the result carries the prefix [~] and is not the
    embedded range.  And with [tilde=false], [exact=false] and the prefix
    [^], a sibling pattern as discovery renders it, [sibling@2.3.1], gives
    [2.3.1] for the resolved version [2.3.1], not [^2.3.1]. *)
Lemma getPatternVersion_tilde_overrides_concrete_range :
  let s := Monorepo.afterResolution in
  let pkg := Monorepo.package "a" "1.0.0" in
  let np := Sample.normalize "a@1.0.0" in
  Sample.exotic "a@1.0.0" = false
  /\ hasVersion np = true
  /\ range np = "1.0.0"
  /\ Sample.satisfies (version pkg) (range np) = true
  /\ Sample.valid (range np) = true
  /\ getPatternVersion Sample.collaborators (Monorepo.withTilde s) "a@1.0.0" pkg = "~1.0.0"
  /\ getPatternVersion Sample.collaborators (Monorepo.withTilde s) "a@1.0.0" pkg <> range np
  /\ tilde (flags s) = false
  /\ exact (flags s) = false
  /\ save_prefix (config s) = "^"
  /\ getPatternVersion Sample.collaborators s "sibling@2.3.1"
       (Monorepo.package "sibling" "2.3.1") = "2.3.1".
Proof. cbv zeta. split_and!; try reflexivity. discriminate. Qed.

(** ** Canonicalisation and aliasing *)

(** Every event [preparePatterns] adds to the trace is a [replacePattern]
    call for a sibling whose new pattern differs from the old one. *)
Lemma preparePatterns_loop_trace (E : Collaborators) (sibs : list string) :
  forall (acc : list string) (s : Isolate) r s',
    preparePatterns_loop E sibs acc s = (r, s') ->
    exists evs, trace s' = trace s ++ evs /\ Forall (aliasesSibling sibs) evs.
Proof.
  induction sibs as [|pat rest IH]; intros acc s r s' Hrun.
  - cbn in Hrun. injection Hrun as _ <-. exists []. by rewrite app_nil_r.
  - cbn [preparePatterns_loop] in Hrun. rewrite bind_this in Hrun.
    assert (Hweaken : forall evs, Forall (aliasesSibling rest) evs ->
                                  Forall (aliasesSibling (pat :: rest)) evs).
    { intros evs Hall. eapply Forall_impl; [exact Hall|].
      intros ev (old & new & -> & Hin & Hne).
      exists old, new. split_and!; [done| by right |done]. }
    destruct (getResolvedPattern (resolver s) pat) as [pkg|].
    + destruct (String.eqb_spec
                  (name pkg +:+ "@" +:+ getPatternVersion E s pat pkg) pat) as [Heq|Hne].
      * apply IH in Hrun as (evs & Htr & Hall). exists evs. split; [done|]. by apply Hweaken.
      * unfold resolver_replacePattern in Hrun. unfold bind at 1 2 3, this, emit in Hrun.
        cbn [fst snd] in Hrun. unfold set_resolver in Hrun.
        apply IH in Hrun as (evs & Htr & Hall). cbn in Htr.
        exists (ReplacePattern pat (name pkg +:+ "@" +:+ getPatternVersion E s pat pkg) :: evs).
        split; [by rewrite Htr, <- app_assoc|].
        constructor; [|by apply Hweaken].
        eexists _, _. split_and!; [done| by left |done].
    + injection Hrun as _ <-. exists []. by rewrite app_nil_r.
Qed.

(** On canonical sibling patterns the loop appends them and changes nothing. *)
Lemma preparePatterns_loop_canonical (E : Collaborators) (s : Isolate) (sibs : list string) :
  Forall (fun pat => canonicalPattern E s pat = Some pat) sibs ->
  forall acc, preparePatterns_loop E sibs acc s = (Ok (acc ++ sibs), s).
Proof.
  induction 1 as [|pat rest Hpat _ IH]; intros acc.
  - cbn. by rewrite app_nil_r.
  - cbn [preparePatterns_loop]. rewrite bind_this.
    unfold canonicalPattern in Hpat.
    destruct (getResolvedPattern (resolver s) pat) as [pkg|]; [|done].
    cbn in Hpat. injection Hpat as Hpat. rewrite Hpat, String.eqb_refl.
    by rewrite IH, <- app_assoc.
Qed.

(** C9, amended: [preparePatterns] calls [replacePattern] only for a sibling
    whose recomputed canonical pattern differs from the sibling pattern kept
    in [this.siblingWorkspaces]; so when every sibling pattern is itself
    canonical, a first call and a second call on its output append the
    siblings and alias nothing: the trace and the pattern table stay as they
    were.  Nothing is said of a second call after a first one that did
    alias. *)
Theorem preparePatterns_canonical_is_alias_free
    (E : Collaborators) (s : Isolate) (sibs pats : list string) :
  siblingWorkspaces s = Some sibs ->
  (forall r s', preparePatterns E pats s = (r, s') ->
     exists evs, trace s' = trace s ++ evs /\ Forall (aliasesSibling sibs) evs)
  /\ (Forall (fun pat => canonicalPattern E s pat = Some pat) sibs ->
      exists once twice s1 s2,
        preparePatterns E pats s = (Ok once, s1)
        /\ preparePatterns E once s1 = (Ok twice, s2)
        /\ once = pats ++ sibs
        /\ twice = (pats ++ sibs) ++ sibs
        /\ trace s2 = trace s1
        /\ resolver s2 = resolver s1
        /\ s2 = s).
Proof.
  intros Hs. split.
  - intros r s'. unfold preparePatterns. with_siblings Hs.
    apply preparePatterns_loop_trace.
  - intros Hcanon.
    assert (Hcall : forall l, preparePatterns E l s = (Ok (l ++ sibs), s)).
    { intros l. unfold preparePatterns. with_siblings Hs.
      by apply preparePatterns_loop_canonical. }
    exists (pats ++ sibs), ((pats ++ sibs) ++ sibs), s, s.
    by rewrite !Hcall.
Qed.

Lemma preparePatterns_canonical_is_alias_free_witness :
  exists once twice s1 s2,
    preparePatterns Sample.collaborators ["lodash@^4.17.0"] Monorepo.afterResolution
    = (Ok once, s1)
    /\ preparePatterns Sample.collaborators once s1 = (Ok twice, s2)
    /\ once = ["lodash@^4.17.0"; "a@1.0.0"; "c@3.0.0"]
    /\ twice = ["lodash@^4.17.0"; "a@1.0.0"; "c@3.0.0"; "a@1.0.0"; "c@3.0.0"]
    /\ trace s2 = trace s1
    /\ resolver s2 = resolver s1
    /\ s2 = Monorepo.afterResolution.
Proof.
  apply (proj2 (preparePatterns_canonical_is_alias_free Sample.collaborators
                  Monorepo.afterResolution ["a@1.0.0"; "c@3.0.0"] ["lodash@^4.17.0"]
                  eq_refl)).
  repeat constructor.
Defined.

(** C9, the claim as stated fails: the sibling list keeps the provisional
    patterns, so with the tilde flag a first call produces the canonical
    patterns [a@~1.0.0] and [c@~3.0.0] and aliases both siblings, and a
    second call on that list recomputes the same canonical patterns, finds
    them different from the sibling patterns again and calls
    [replacePattern] twice more. *)
Lemma preparePatterns_with_tilde_aliases_again :
  let s := Monorepo.withTilde Monorepo.afterResolution in
  let first := preparePatterns Sample.collaborators [] s in
  let second := preparePatterns Sample.collaborators ["a@~1.0.0"; "c@~3.0.0"] first.2 in
  tilde (flags s) = true
  /\ siblingWorkspaces s = Some ["a@1.0.0"; "c@3.0.0"]
  /\ first.1 = Ok ["a@~1.0.0"; "c@~3.0.0"]
  /\ trace first.2 = [ReplacePattern "a@1.0.0" "a@~1.0.0";
                      ReplacePattern "c@3.0.0" "c@~3.0.0"]
  /\ siblingWorkspaces first.2 = Some ["a@1.0.0"; "c@3.0.0"]
  /\ canonicalPattern Sample.collaborators first.2 "a@1.0.0" = Some "a@~1.0.0"
  /\ second.1 = Ok ["a@~1.0.0"; "c@~3.0.0"; "a@~1.0.0"; "c@~3.0.0"]
  /\ trace second.2 = trace first.2 ++ [ReplacePattern "a@1.0.0" "a@~1.0.0";
                                        ReplacePattern "c@3.0.0" "c@~3.0.0"].
Proof. cbv zeta. split_and!; vm_compute; reflexivity. Qed.

(** ** Folding: one call of the callback *)

Lemma with_cell_id (i : nat) (m : Manifest) (s : Isolate) :
  packages (resolver s) !! i = Some m -> with_cell i m s = s.
Proof.
  intros Hm. destruct s as [f c [pt pk] sw o d t]. unfold with_cell, with_resolver.
  cbn in *. by rewrite insert_id.
Qed.

Lemma with_cell_with_cell (i : nat) (m m' : Manifest) (s : Isolate) :
  with_cell i m' (with_cell i m s) = with_cell i m' s.
Proof.
  unfold with_cell, with_resolver. cbn. by rewrite insert_insert_eq.
Qed.

Lemma filter_out_shorter (pat : string) (l : list string) :
  pat ∈ l -> (0 <? length l - length (filter (fun p => p ≠ pat) l))%nat = true.
Proof.
  intros Hin. apply Nat.ltb_lt.
  enough (length (filter (fun p => p ≠ pat) l) < length l)%nat by lia.
  induction l as [|x l IH]; [by apply elem_of_nil in Hin|].
  rewrite filter_cons. destruct (decide (x ≠ pat)) as [Hne|Heq].
  - apply elem_of_cons in Hin as [->|Hin]; [done|]. cbn. apply IH in Hin. lia.
  - cbn. pose proof (length_filter (fun p => p ≠ pat) l). lia.
Qed.

Lemma recorded_entry (m : Manifest) (t n v : string) :
  recorded m t n v = match entry m t n with Some v' => String.eqb v' v | None => false end.
Proof. reflexivity. Qed.

Lemma ensure_bucket_entry (m : Manifest) (t t' n : string) :
  entry (ensure_bucket t m) t' n = entry m t' n.
Proof.
  unfold entry, ensure_bucket. cbn.
  destruct (buckets m !! t) eqn:Ht; [done|].
  destruct (decide (t = t')) as [<-|Hne].
  - by rewrite lookup_insert_eq, Ht.
  - by rewrite lookup_insert_ne.
Qed.

Lemma ensure_bucket_exists (m : Manifest) (t : string) :
  is_Some (buckets (ensure_bucket t m) !! t).
Proof.
  unfold ensure_bucket. cbn. destruct (buckets m !! t) eqn:Ht; [by rewrite Ht|].
  by rewrite lookup_insert_eq.
Qed.

Lemma ensure_bucket_keeps (m : Manifest) (t t' : string) :
  is_Some (buckets m !! t') -> is_Some (buckets (ensure_bucket t m) !! t').
Proof.
  unfold ensure_bucket. cbn. destruct (buckets m !! t) eqn:Ht; [done|].
  intros Hsome. rewrite lookup_insert_ne; [done|]. intros ->.
  rewrite Ht in Hsome. by destruct Hsome.
Qed.

(** The step leaves the name, the version and every recorded entry alone,
    makes sure the bucket exists, and pushes the pattern unless the entry is
    already recorded with this version. *)
Lemma foldStep_spec (m : Manifest) (ref : PackageReference) (pat t n v : string) :
  _reference m = Some ref ->
  let m' := foldStep m pat t n v in
  name m' = name m
  /\ version m' = version m
  /\ is_Some (_reference m')
  /\ (forall t' n', entry m' t' n' = entry m t' n')
  /\ is_Some (buckets m' !! t)
  /\ (forall t', is_Some (buckets m !! t') -> is_Some (buckets m' !! t'))
  /\ backlinks m' = backlinks m ++ (if recorded m t n v then [] else [pat]).
Proof.
  intros Href m'. subst m'. unfold foldStep.
  rewrite (recorded_entry (ensure_bucket t m)), ensure_bucket_entry, <- recorded_entry.
  assert (Hsome : is_Some (_reference m)) by (by rewrite Href).
  destruct (recorded m t n v).
  - split_and!.
    + reflexivity.
    + reflexivity.
    + exact Hsome.
    + apply ensure_bucket_entry.
    + apply ensure_bucket_exists.
    + apply ensure_bucket_keeps.
    + unfold backlinks. cbn. by rewrite app_nil_r.
  - change (_reference (ensure_bucket t m)) with (_reference m). rewrite Href.
    split_and!.
    + reflexivity.
    + reflexivity.
    + by eexists.
    + intros t' n'. apply (ensure_bucket_entry m t t' n').
    + apply (ensure_bucket_exists m t).
    + apply (ensure_bucket_keeps m t).
    + unfold backlinks. cbn. by rewrite Href.
Qed.

Lemma foldAdded_ok (i : nat) (pats : list string) (pat reg t n v : string)
    (acc : list string) (s : Isolate) (m : Manifest) (ref : PackageReference) :
  packages (resolver s) !! i = Some m ->
  _reference m = Some ref ->
  pat ∈ acc ->
  foldAdded i pats pat reg t n v acc s
  = (Ok (filter (fun p => p ≠ pat) acc), with_cell i (foldStep m pat t n v) s).
Proof.
  intros Hm Href Hin. unfold foldAdded.
  rewrite (filter_out_shorter _ _ Hin). cbn [invariant].
  unfold bind at 1. cbn [ret].
  unfold read_cell. unfold bind at 1. rewrite bind_this, Hm. cbn [ret].
  unfold write_cell at 1. unfold bind at 1. rewrite bind_this.
  unfold set_resolver at 1. fold (with_cell i (ensure_bucket t m) s).
  unfold foldStep. destruct (recorded (ensure_bucket t m) t n v); [done|].
  change (_reference (ensure_bucket t m)) with (_reference m). rewrite Href.
  unfold write_cell, bind, this, set_resolver, ret.
  fold (with_cell i (push_dependency pat (ensure_bucket t m) ref)
          (with_cell i (ensure_bucket t m) s)).
  by rewrite with_cell_with_cell.
Qed.

(** ** Folding: the loop over the siblings *)

Lemma getPatternVersion_ext (E : Collaborators) (s s' : Isolate) (pat : string)
    (pkg pkg' : Manifest) :
  flags s = flags s' -> config s = config s' -> version pkg = version pkg' ->
  getPatternVersion E s pat pkg = getPatternVersion E s' pat pkg'.
Proof. intros Hf Hc Hv. unfold getPatternVersion. by rewrite Hf, Hc, Hv. Qed.

(** Writing the target cell does not change what the loop reads of any
    sibling, as long as the name, the version and the presence of the
    reference stay. *)
Lemma addedInfo_with_cell (E : Collaborators) (i : nat) (m m' : Manifest) (s : Isolate)
    (pat : string) :
  packages (resolver s) !! i = Some m ->
  name m' = name m -> version m' = version m ->
  is_Some (_reference m) -> is_Some (_reference m') ->
  addedInfo E (with_cell i m' s) pat = addedInfo E s pat.
Proof.
  intros Hm Hn Hv [ref Href] [ref' Href']. unfold addedInfo, getResolvedPattern.
  cbn [with_cell with_resolver resolver patterns packages rootPatternsToOrigin flagToOrigin].
  destruct (patterns (resolver s) !! pat) as [j|]; [|done]. cbn [mbind option_bind].
  destruct (decide (j = i)) as [->|Hne].
  - rewrite lookup_insert_eq, Hm. cbn [mbind option_bind]. rewrite Href, Href', Hn.
    cbn [mbind option_bind].
    by rewrite (getPatternVersion_ext E (with_cell i m' s) s pat m' m).
  - rewrite lookup_insert_ne by done.
    destruct (packages (resolver s) !! j) as [pkg|]; [|done]. cbn [mbind option_bind].
    destruct (_reference pkg); [|done]. reflexivity.
Qed.

Lemma filter_out_all (pat : string) (rest acc : list string) :
  filter (fun p => p ∉ rest) (filter (fun p => p ≠ pat) acc)
  = filter (fun p => p ∉ pat :: rest) acc.
Proof.
  rewrite list_filter_filter. apply list_filter_iff.
  intros p. rewrite not_elem_of_cons. tauto.
Qed.

Lemma iterateAdded_loop_fold (E : Collaborators) (i : nat) (pats : list string)
    (sibs : list string) :
  forall (acc : list string) (s : Isolate) (m : Manifest),
    packages (resolver s) !! i = Some m ->
    is_Some (_reference m) ->
    NoDup sibs ->
    Forall (fun pat => pat ∈ acc /\ is_Some (addedInfo E s pat)) sibs ->
    exists m',
      iterateAdded_loop E (foldAdded i pats) (keys (rootPatternsToOrigin s)) sibs acc s
      = (Ok (filter (fun p => p ∉ sibs) acc), with_cell i m' s)
      /\ name m' = name m
      /\ version m' = version m
      /\ is_Some (_reference m')
      /\ (forall t n, entry m' t n = entry m t n)
      /\ (forall t, is_Some (buckets m !! t) -> is_Some (buckets m' !! t))
      /\ Forall (fun pat => exists t n v,
                   addedInfo E s pat = Some (t, n, v) /\ is_Some (buckets m' !! t)) sibs
      /\ backlinks m'
         = backlinks m ++ filter (fun pat => alreadyRecorded E s m pat = false) sibs.
Proof.
  induction sibs as [|pat rest IH]; intros acc s m Hm Href Hnd Hall.
  - exists m.
    assert (filter (fun p => p ∉ []) acc = acc) as ->.
    { apply filter_keeps_all. intros p _. apply not_elem_of_nil. }
    rewrite (with_cell_id _ _ _ Hm).
    split_and!; [reflexivity|done|done|done|done|done|constructor|].
    by rewrite app_nil_r.
  - apply NoDup_cons in Hnd as [Hfresh Hnd].
    apply Forall_cons_1 in Hall as [[Hin [[[t n] v] Hinfo]] Hall].
    destruct Href as [ref Href].
    pose proof (foldStep_spec m ref pat t n v Href)
      as (Hn1 & Hv1 & Href1 & Hentry1 & Hbucket1 & Hkeep1 & Hback1).
    set (m1 := foldStep m pat t n v) in *.
    (* the reads of this iteration *)
    pose proof Hinfo as Hread. unfold addedInfo in Hread.
    destruct (getResolvedPattern (resolver s) pat) as [pkg|] eqn:Hpkg; [|done].
    cbn [mbind option_bind] in Hread.
    destruct (_reference pkg) as [pref|] eqn:Hpref; [|done].
    cbn [mbind option_bind] in Hread. injection Hread as Ht Hname Hver.
    (* the rest of the loop, from the state the callback leaves *)
    assert (Hinfo1 : forall q, addedInfo E (with_cell i m1 s) q = addedInfo E s q).
    { intros q. apply (addedInfo_with_cell E i m m1 s q); eauto. }
    destruct (IH (filter (fun p => p ≠ pat) acc) (with_cell i m1 s) m1)
      as (m' & Hrun & Hn' & Hv' & Href' & Hentry' & Hkeep' & Hbuckets' & Hback').
    { cbn. by rewrite lookup_insert_eq. }
    { exact Href1. }
    { exact Hnd. }
    { eapply Forall_impl; [apply Forall_and; split; [exact Hall|]|].
      - apply Forall_forall. intros q Hq. exact Hq.
      - intros q [[Hqin Hqinfo] Hq]. split.
        + apply list_elem_of_filter. split; [|done]. intros ->. contradiction.
        + by rewrite Hinfo1. }
    exists m'. split_and!.
    + cbn [iterateAdded_loop]. rewrite bind_this, Hpkg, Hpref.
      unfold bind at 1. rewrite Ht, Hname, Hver.
      rewrite (foldAdded_ok i pats pat (registry pref) t n v acc s m ref Hm Href Hin).
      fold m1. change (keys (rootPatternsToOrigin s))
        with (keys (rootPatternsToOrigin (with_cell i m1 s))).
      rewrite Hrun, with_cell_with_cell, filter_out_all. reflexivity.
    + congruence.
    + congruence.
    + exact Href'.
    + intros t' n'. by rewrite Hentry', Hentry1.
    + intros t' Hsome. by apply Hkeep', Hkeep1.
    + constructor.
      * exists t, n, v. split; [done|]. by apply Hkeep'.
      * eapply Forall_impl; [exact Hbuckets'|].
        intros q (t' & n' & v' & Hq & Hsome). exists t', n', v'.
        split; [by rewrite <- Hinfo1|done].
    + rewrite Hback', Hback1, <- app_assoc. f_equal.
      assert (Hrec : alreadyRecorded E s m pat = recorded m t n v).
      { unfold alreadyRecorded. by rewrite Hinfo. }
      rewrite filter_cons, Hrec.
      assert (Hsame : filter (fun q => alreadyRecorded E (with_cell i m1 s) m1 q = false) rest
                      = filter (fun q => alreadyRecorded E s m q = false) rest).
      { apply list_filter_iff. intros q. unfold alreadyRecorded. rewrite Hinfo1.
        destruct (addedInfo E s q) as [[[t' n'] v']|]; [|done].
        by rewrite !recorded_entry, Hentry1. }
      rewrite Hsame. destruct (recorded m t n v); by case_decide.
Qed.

(** ** Counting occurrences *)

Lemma occurrences_app (pat : string) (l1 l2 : list string) :
  occurrences pat (l1 ++ l2) = (occurrences pat l1 + occurrences pat l2)%nat.
Proof. unfold occurrences. by rewrite filter_app, length_app. Qed.

Lemma occurrences_absent (pat : string) (l : list string) :
  pat ∉ l -> occurrences pat l = 0%nat.
Proof.
  unfold occurrences. induction l as [|x l IH]; intros Hnot; [done|].
  apply not_elem_of_cons in Hnot as [Hne Hnot].
  rewrite filter_cons_False by congruence. by apply IH.
Qed.

Lemma occurrences_NoDup (pat : string) (l : list string) :
  NoDup l -> pat ∈ l -> occurrences pat l = 1%nat.
Proof.
  induction l as [|x l IH]; intros Hnd Hin; [by apply elem_of_nil in Hin|].
  apply NoDup_cons in Hnd as [Hfresh Hnd].
  change (x :: l) with ([x] ++ l). rewrite occurrences_app.
  destruct (decide (x = pat)) as [->|Hne].
  - rewrite (occurrences_absent pat l) by done.
    unfold occurrences. by rewrite filter_cons_True.
  - apply elem_of_cons in Hin as [->|Hin]; [done|].
    rewrite IH by done. unfold occurrences. by rewrite filter_cons_False.
Qed.

(** ** Folding: the whole method *)

(** The non-root path of [preparePatternsForLinking] when the target's own
    package is in the pattern table: it returns, and this is what it leaves. *)
Lemma preparePatternsForLinking_run
    (E : Collaborators) (s : Isolate) (pats : list string) (cwdManifest : Manifest)
    (target : nat) (m : Manifest) (sibs : list string) :
  patterns (resolver s) !! (name cwdManifest +:+ "@" +:+ version cwdManifest) = Some target ->
  packages (resolver s) !! target = Some m ->
  is_Some (_reference m) ->
  siblingWorkspaces s = Some sibs ->
  NoDup sibs ->
  Forall (fun pat => pat ∈ pats /\ is_Some (addedInfo E s pat)) sibs ->
  exists m',
    preparePatternsForLinking E pats cwdManifest false s
    = (Ok (filter (fun p => p ∉ sibs) pats), with_cell target m' s)
    /\ (forall t n, entry m' t n = entry m t n)
    /\ Forall (fun pat => exists t n v,
                 addedInfo E s pat = Some (t, n, v) /\ is_Some (buckets m' !! t)) sibs
    /\ backlinks m'
       = backlinks m ++ filter (fun pat => alreadyRecorded E s m pat = false) sibs.
Proof.
  intros Htarget Hm Href Hs Hnd Hall.
  destruct (iterateAdded_loop_fold E target pats sibs pats s m Hm Href Hnd Hall)
    as (m' & Hrun & _ & _ & _ & Hentry & _ & Hbuckets & Hback).
  exists m'. split_and!; [|done..].
  unfold preparePatternsForLinking. rewrite bind_this.
  unfold getStrictResolvedPattern. rewrite Htarget, Hm.
  unfold _iterateAddedPackages. rewrite bind_this, Hs.
  unfold bind at 1. cbn [iterable ret]. exact Hrun.
Qed.

(** C1, amended: on a non-root target whose own package resolves and carries
    a reference, with distinct sibling patterns that are all in the pattern
    list and all resolve to packages with a reference,
    [preparePatternsForLinking] returns the pattern list without the sibling
    patterns, so none of them is left in it; afterwards the bucket of each
    sibling's dependency type exists in the target manifest, and the
    name-to-version entries of the manifest are the ones it had; each sibling
    pattern not already recorded with the selected version is appended once,
    in sibling order, to the target's backlink list, where it then occurs
    exactly once unless it occurred before, and a sibling already recorded
    with that version is not appended. *)
Theorem preparePatternsForLinking_folds_siblings
    (E : Collaborators) (s : Isolate) (pats : list string) (cwdManifest : Manifest)
    (target : nat) (m : Manifest) (sibs : list string) :
  patterns (resolver s) !! (name cwdManifest +:+ "@" +:+ version cwdManifest) = Some target ->
  packages (resolver s) !! target = Some m ->
  is_Some (_reference m) ->
  siblingWorkspaces s = Some sibs ->
  NoDup sibs ->
  Forall (fun pat => pat ∈ pats /\ is_Some (addedInfo E s pat)) sibs ->
  exists out m',
    preparePatternsForLinking E pats cwdManifest false s = (Ok out, with_cell target m' s)
    /\ getResolvedPattern (resolver (with_cell target m' s))
         (name cwdManifest +:+ "@" +:+ version cwdManifest) = Some m'
    /\ out = filter (fun p => p ∉ sibs) pats
    /\ Forall (fun pat => pat ∉ out) sibs
    /\ Forall (fun pat => exists t n v,
                 addedInfo E s pat = Some (t, n, v)
                 /\ is_Some (buckets m' !! t)
                 /\ entry m' t n = entry m t n) sibs
    /\ (forall t n, entry m' t n = entry m t n)
    /\ backlinks m'
       = backlinks m ++ filter (fun pat => alreadyRecorded E s m pat = false) sibs
    /\ Forall (fun pat =>
                 (alreadyRecorded E s m pat = false -> pat ∉ backlinks m ->
                  occurrences pat (backlinks m') = 1%nat)
                 /\ (alreadyRecorded E s m pat = true ->
                     occurrences pat (backlinks m') = occurrences pat (backlinks m))) sibs.
Proof.
  intros Htarget Hm Href Hs Hnd Hall.
  destruct (preparePatternsForLinking_run E s pats cwdManifest target m sibs
              Htarget Hm Href Hs Hnd Hall) as (m' & Hrun & Hentry & Hbuckets & Hback).
  exists (filter (fun p => p ∉ sibs) pats), m'. split_and!.
  - exact Hrun.
  - unfold getResolvedPattern. cbn. rewrite Htarget. cbn. by rewrite lookup_insert_eq.
  - reflexivity.
  - apply Forall_forall. intros pat Hin Hout.
    apply list_elem_of_filter in Hout as [Hnot _]. contradiction.
  - eapply Forall_impl; [exact Hbuckets|].
    intros pat (t & n & v & Hinfo & Hsome). exists t, n, v. split_and!; done.
  - exact Hentry.
  - exact Hback.
  - apply Forall_forall. intros pat Hin. rewrite Hback, occurrences_app. split.
    + intros Hrec Hnot. rewrite (occurrences_absent pat (backlinks m)) by done.
      apply occurrences_NoDup; [by apply NoDup_filter|].
      apply list_elem_of_filter. by split.
    + intros Hrec. rewrite (occurrences_absent pat (filter _ sibs)); [lia|].
      intros Hin'. apply list_elem_of_filter in Hin' as [Hrec' _]. congruence.
Qed.

Lemma preparePatternsForLinking_folds_siblings_witness :
  exists out m',
    preparePatternsForLinking Sample.collaborators
      ["lodash@^4.17.0"; "a@1.0.0"; "c@3.0.0"] (Monorepo.package "b" "2.0.0") false
      Monorepo.afterResolution
    = (Ok out, with_cell 1 m' Monorepo.afterResolution)
    /\ out = ["lodash@^4.17.0"]
    /\ backlinks m' = ["a@1.0.0"; "c@3.0.0"].
Proof.
  destruct (preparePatternsForLinking_folds_siblings Sample.collaborators
              Monorepo.afterResolution ["lodash@^4.17.0"; "a@1.0.0"; "c@3.0.0"]
              (Monorepo.package "b" "2.0.0") 1 (Monorepo.package "b" "2.0.0")
              ["a@1.0.0"; "c@3.0.0"])
    as (out & m' & Hrun & _ & Hout & _ & _ & _ & Hback & _).
  - reflexivity.
  - reflexivity.
  - by eexists.
  - reflexivity.
  - apply (bool_decide_unpack _). vm_compute. reflexivity.
  - repeat constructor; first [ apply (bool_decide_unpack _); vm_compute; reflexivity
                              | by eexists ].
  - exists out, m'. split_and!; [exact Hrun | by rewrite Hout | by rewrite Hback].
Defined.

(** C1, the claim as stated fails: folding [a@1.0.0] and [c@3.0.0] into [b]
    succeeds and returns the list without them, yet the sibling [a], whose
    dependency type is [dependencies], does not appear in that bucket of [b]
    afterwards.  And where [b] already declares [a] at the selected version
    [1.0.0], folding succeeds as well and the pattern [a@1.0.0] is not
    appended to the backlink list of [b], so it occurs there not once but
    never. *)
Lemma fold_leaves_dependency_map_without_sibling :
  let pats := ["lodash@^4.17.0"; "a@1.0.0"; "c@3.0.0"] in
  let run := preparePatternsForLinking Sample.collaborators pats
               (Monorepo.package "b" "2.0.0") false Monorepo.afterResolution in
  let b := getResolvedPattern (resolver run.2) "b@2.0.0" in
  let run' := preparePatternsForLinking Sample.collaborators pats
                (Monorepo.package "b" "2.0.0") false
                Monorepo.afterResolutionWithDeclaredA in
  let b' := getResolvedPattern (resolver run'.2) "b@2.0.0" in
  run.1 = Ok ["lodash@^4.17.0"]
  /\ addedInfo Sample.collaborators Monorepo.afterResolution "a@1.0.0"
     = Some ("dependencies", "a", "1.0.0")
  /\ (b ≫= fun m => entry m "dependencies" "a") = None
  /\ backlinks <$> b = Some ["a@1.0.0"; "c@3.0.0"]
  /\ run'.1 = Ok ["lodash@^4.17.0"]
  /\ (b' ≫= fun m => entry m "dependencies" "a") = Some "1.0.0"
  /\ backlinks <$> b' = Some ["c@3.0.0"]
  /\ occurrences "a@1.0.0" <$> (backlinks <$> b') = Some 0%nat.
Proof. cbv zeta. split_and!; vm_compute; reflexivity. Qed.

(** ** The isolated install of one workspace *)

(** A provisional sibling pattern [name@version] carries a concrete version
    that the resolved package satisfies: without the tilde flag the policy
    selects the resolved version without a prefix, whatever the configured
    prefix is. *)
Lemma getPatternVersion_provisional (E : Collaborators) (s : Isolate) (pat n v : string)
    (pkg : Manifest) :
  getExoticResolver E pat = false ->
  normalizePattern E pat = {| hasVersion := true; np_name := n; range := v |} ->
  truthy v = true ->
  semver_satisfies E (version pkg) v = true ->
  semver_valid E v = true ->
  tilde (flags s) = false ->
  getPatternVersion E s pat pkg = version pkg.
Proof.
  intros Hex Hnp Htr Hsat Hval Htilde.
  rewrite getPatternVersion_kept_range; [|done|].
  - by rewrite Hnp, Htilde; cbn; rewrite Hval.
  - unfold keepsRange. rewrite Hnp. cbn. by rewrite Htr, Hsat.
Qed.

Lemma scenario_addedInfo (E : Collaborators) :
  Scenario.helpersAgree E ->
  addedInfo E Scenario.resolved "a@1.0.0" = Some ("dependencies", "a", "1.0.0")
  /\ addedInfo E Scenario.resolved "c@3.0.0" = Some ("dependencies", "c", "3.0.0").
Proof.
  intros (Hexa & Hexc & Hnpa & Hnpc & Hsata & Hsatc & Hvala & Hvalc). split.
  - unfold addedInfo.
    change (getResolvedPattern (resolver Scenario.resolved) "a@1.0.0")
      with (Some (Monorepo.package "a" "1.0.0")).
    cbn [mbind option_bind Monorepo.package _reference name].
    by rewrite (getPatternVersion_provisional E _ _ "a" "1.0.0").
  - unfold addedInfo.
    change (getResolvedPattern (resolver Scenario.resolved) "c@3.0.0")
      with (Some (Monorepo.package "c" "3.0.0")).
    cbn [mbind option_bind Monorepo.package _reference name].
    by rewrite (getPatternVersion_provisional E _ _ "c" "3.0.0").
Qed.

Lemma scenario_canonical (E : Collaborators) :
  Scenario.helpersAgree E ->
  Forall (fun pat => canonicalPattern E Scenario.resolved pat = Some pat) Scenario.siblings.
Proof.
  intros (Hexa & Hexc & Hnpa & Hnpc & Hsata & Hsatc & Hvala & Hvalc).
  repeat constructor.
  - unfold canonicalPattern.
    change (getResolvedPattern (resolver Scenario.resolved) "a@1.0.0")
      with (Some (Monorepo.package "a" "1.0.0")).
    cbn [mbind option_bind].
    by rewrite (getPatternVersion_provisional E _ _ "a" "1.0.0").
  - unfold canonicalPattern.
    change (getResolvedPattern (resolver Scenario.resolved) "c@3.0.0")
      with (Some (Monorepo.package "c" "3.0.0")).
    cbn [mbind option_bind].
    by rewrite (getPatternVersion_provisional E _ _ "c" "3.0.0").
Qed.

(** C2, amended: with the workspaces [a@1.0.0], [b@2.0.0] and [c@3.0.0],
    isolating [b] with default flags discovers the siblings
    [a@1.0.0] and [c@3.0.0] and injects them as requests after the base ones;
    canonicalisation leaves them as [a@1.0.0] and [c@3.0.0], since each
    embeds the concrete resolved version, and aliases nothing; folding takes
    both out of the final pattern list and appends them to the backlink list
    of [b], whose [dependencies] bucket exists afterwards and holds no entry
    for [a] or [c]. *)
Theorem isolate_b_scenario
    (E : Collaborators) (baseRequests : list DependencyRequest) (basePatterns : list string) :
  Scenario.helpersAgree E ->
  "a@1.0.0" ∉ basePatterns ->
  "c@3.0.0" ∉ basePatterns ->
  exists requests canonical final s3 b',
    setSiblingWorkspaces Monorepo.world Monorepo.fresh = (Ok tt, Scenario.discovered)
    /\ siblingWorkspaces Scenario.discovered = Some ["a@1.0.0"; "c@3.0.0"]
    /\ prepareRequests baseRequests Scenario.discovered = (Ok requests, Scenario.discovered)
    /\ requests = baseRequests ++ [siblingRequest "a@1.0.0"; siblingRequest "c@3.0.0"]
    /\ preparePatterns E basePatterns Scenario.resolved = (Ok canonical, Scenario.resolved)
    /\ canonical = basePatterns ++ ["a@1.0.0"; "c@3.0.0"]
    /\ preparePatternsForLinking E canonical Scenario.b false Scenario.resolved
       = (Ok final, s3)
    /\ final = basePatterns
    /\ getResolvedPattern (resolver s3) "b@2.0.0" = Some b'
    /\ backlinks b' = ["a@1.0.0"; "c@3.0.0"]
    /\ is_Some (buckets b' !! "dependencies")
    /\ entry b' "dependencies" "a" = None
    /\ entry b' "dependencies" "c" = None.
Proof.
  intros Hagree Hbase_a Hbase_c.
  destruct (scenario_addedInfo E Hagree) as [Hinfo_a Hinfo_c].
  pose proof (scenario_canonical E Hagree) as Hcanon.
  destruct (preparePatternsForLinking_run E Scenario.resolved
              (basePatterns ++ Scenario.siblings) Scenario.b 1 Scenario.b Scenario.siblings)
    as (b' & Hrun & Hentry & Hbuckets & Hback).
  { reflexivity. }
  { reflexivity. }
  { by eexists. }
  { reflexivity. }
  { apply (bool_decide_unpack _). vm_compute. reflexivity. }
  { repeat constructor.
    - apply elem_of_app. right. by left.
    - by rewrite Hinfo_a.
    - apply elem_of_app. right. right. by left.
    - by rewrite Hinfo_c. }
  exists (baseRequests ++ [siblingRequest "a@1.0.0"; siblingRequest "c@3.0.0"]),
         (basePatterns ++ Scenario.siblings), basePatterns,
         (with_cell 1 b' Scenario.resolved), b'.
  split_and!.
  - reflexivity.
  - reflexivity.
  - unfold prepareRequests, bind, this.
    change (siblingWorkspaces Scenario.discovered) with (Some Scenario.siblings).
    cbn [iterable ret]. by rewrite fold_left_push.
  - reflexivity.
  - unfold preparePatterns, bind, this.
    change (siblingWorkspaces Scenario.resolved) with (Some Scenario.siblings).
    cbn [iterable ret]. by apply preparePatterns_loop_canonical.
  - reflexivity.
  - rewrite Hrun. f_equal. f_equal. rewrite filter_app.
    assert (filter (fun p => p ∉ Scenario.siblings) Scenario.siblings = []) as ->
      by (vm_compute; reflexivity).
    rewrite app_nil_r. apply filter_keeps_all.
    intros p Hp Hin. unfold Scenario.siblings in Hin.
    apply elem_of_cons in Hin as [->|Hin]; [contradiction|].
    apply elem_of_cons in Hin as [->|Hin]; [contradiction|].
    by apply elem_of_nil in Hin.
  - reflexivity.
  - unfold getResolvedPattern.
    change (patterns (resolver (with_cell 1 b' Scenario.resolved)) !! "b@2.0.0")
      with (Some 1%nat).
    cbn. by rewrite lookup_insert_eq.
  - rewrite Hback. unfold Scenario.siblings.
    assert (alreadyRecorded E Scenario.resolved Scenario.b "a@1.0.0" = false) as Ha
      by (unfold alreadyRecorded; by rewrite Hinfo_a).
    assert (alreadyRecorded E Scenario.resolved Scenario.b "c@3.0.0" = false) as Hc
      by (unfold alreadyRecorded; by rewrite Hinfo_c).
    rewrite !filter_cons, filter_nil, Ha, Hc. reflexivity.
  - apply Forall_cons_1 in Hbuckets as [(t & n & v & Hinfo & Hsome) _].
    rewrite Hinfo_a in Hinfo. by injection Hinfo as <- _ _.
  - by rewrite Hentry.
  - by rewrite Hentry.
Qed.

Lemma isolate_b_scenario_witness :
  exists requests canonical final s3 b',
    prepareRequests [Monorepo.lodash] Scenario.discovered
    = (Ok requests, Scenario.discovered)
    /\ requests = [Monorepo.lodash; siblingRequest "a@1.0.0"; siblingRequest "c@3.0.0"]
    /\ preparePatterns Sample.collaborators ["lodash@^4.17.0"] Scenario.resolved
       = (Ok canonical, Scenario.resolved)
    /\ canonical = ["lodash@^4.17.0"; "a@1.0.0"; "c@3.0.0"]
    /\ preparePatternsForLinking Sample.collaborators canonical Scenario.b false
         Scenario.resolved = (Ok final, s3)
    /\ final = ["lodash@^4.17.0"]
    /\ getResolvedPattern (resolver s3) "b@2.0.0" = Some b'
    /\ backlinks b' = ["a@1.0.0"; "c@3.0.0"].
Proof.
  destruct (isolate_b_scenario Sample.collaborators [Monorepo.lodash] ["lodash@^4.17.0"])
    as (requests & canonical & final & s3 & b' & _ & _ & Hreq & Hrequests & Hcan
        & Hcanonical & Hfold & Hfinal & Hb & Hback & _).
  - repeat split; reflexivity.
  - apply (bool_decide_unpack _). vm_compute. reflexivity.
  - apply (bool_decide_unpack _). vm_compute. reflexivity.
  - exists requests, canonical, final, s3, b'.
    split_and!; [exact Hreq | by rewrite Hrequests | exact Hcan | by rewrite Hcanonical
                | exact Hfold | by rewrite Hfinal | exact Hb | exact Hback].
Defined.

(** C2, the claim as stated fails: with default flags the canonical sibling
    patterns are [a@1.0.0] and [c@3.0.0], not [a@^1.0.0] and [c@^3.0.0], the
    resolver is asked for no alias, and after folding the [dependencies]
    bucket of [b] is empty rather than holding [a] and [c]. *)
Lemma isolate_b_keeps_concrete_versions :
  let canonical := preparePatterns Sample.collaborators [] Scenario.resolved in
  let folded := preparePatternsForLinking Sample.collaborators ["a@1.0.0"; "c@3.0.0"]
                  Scenario.b false canonical.2 in
  let b := getResolvedPattern (resolver folded.2) "b@2.0.0" in
  canonical.1 = Ok ["a@1.0.0"; "c@3.0.0"]
  /\ canonical.1 <> Ok ["a@^1.0.0"; "c@^3.0.0"]
  /\ canonical.2 = Scenario.resolved
  /\ folded.1 = Ok []
  /\ (b ≫= fun m => buckets m !! "dependencies") = Some ∅
  /\ (b ≫= fun m => buckets m !! "dependencies")
     <> Some {[ "a" := "^1.0.0"; "c" := "^3.0.0" ]}.
Proof.
  cbv zeta. split_and!; try (vm_compute; reflexivity).
  - vm_compute. discriminate.
  - vm_compute. discriminate.
Qed.

(** * Further properties *)

(** ** The registry loop *)

Lemma findRegistry_first_from (W : World) (s : Isolate) (t : list event)
    (pre post : list (string * string)) (r filename : string) :
  Forall (fun r => fs_exists W (path_join W (lockfileFolder (config s)) r.2)
                   && fs_exists W (path_join W (cwd (config s)) r.2) = false) pre ->
  fs_exists W (path_join W (lockfileFolder (config s)) filename) = true ->
  fs_exists W (path_join W (cwd (config s)) filename) = true ->
  findRegistry W (pre ++ (r, filename) :: post) (with_trace t s)
  = (Ok (Some (path_join W (lockfileFolder (config s)) filename,
               path_join W (cwd (config s)) filename)),
     with_trace (t ++ probes W (config s) pre
                   ++ [FsExists (path_join W (lockfileFolder (config s)) filename);
                       FsExists (path_join W (cwd (config s)) filename)]) s).
Proof.
  intros Hpre Hroot Hws. revert t.
  induction pre as [|[r' filename'] pre IH]; intros t.
  - cbn [app findRegistry probes flat_map]. rewrite bind_this.
    unfold exists_ at 1. unfold bind at 1. unfold bind at 1. unfold emit.
    rewrite with_event_trace. unfold ret at 1. cbn [config with_trace].
    rewrite Hroot. cbn [negb].
    unfold exists_ at 1. unfold bind at 1. unfold bind at 1. unfold emit.
    rewrite with_event_trace. unfold ret at 1. rewrite Hws. cbn [negb].
    unfold ret. f_equal. f_equal. by rewrite <- !app_assoc.
  - apply Forall_cons_1 in Hpre as [Hhere Hpre]. cbn [snd] in Hhere.
    cbn [app findRegistry probes flat_map snd]. rewrite bind_this.
    unfold exists_ at 1. unfold bind at 1. unfold bind at 1. unfold emit.
    rewrite with_event_trace. unfold ret at 1. cbn [config with_trace].
    destruct (fs_exists W (path_join W (lockfileFolder (config s)) filename')); cbn [negb].
    + cbn [andb] in Hhere.
      unfold exists_ at 1. unfold bind at 1. unfold bind at 1. unfold emit.
      rewrite with_event_trace. unfold ret at 1. rewrite Hhere. cbn [negb].
      rewrite IH by done. unfold probes. f_equal. f_equal.
      by rewrite <- !app_assoc.
    + rewrite IH by done. unfold probes. f_equal. f_equal.
      by rewrite <- !app_assoc.
Qed.

(** X1: the registry loop stops at the first registry whose manifest file
    exists both at the root and in the workspace: it answers the two
    locations of that registry, has probed the earlier registries (the
    workspace location only where the root one exists) and then these two
    locations, and never looks at a later registry. *)
Theorem findRegistry_first_common (W : World) (s : Isolate)
    (pre post : list (string * string)) (r filename : string) :
  Forall (fun r => fs_exists W (path_join W (lockfileFolder (config s)) r.2)
                   && fs_exists W (path_join W (cwd (config s)) r.2) = false) pre ->
  fs_exists W (path_join W (lockfileFolder (config s)) filename) = true ->
  fs_exists W (path_join W (cwd (config s)) filename) = true ->
  let rootLoc := path_join W (lockfileFolder (config s)) filename in
  let workspaceLoc := path_join W (cwd (config s)) filename in
  findRegistry W (pre ++ (r, filename) :: post) s
  = (Ok (Some (rootLoc, workspaceLoc)),
     with_trace (trace s ++ probes W (config s) pre
                   ++ [FsExists rootLoc; FsExists workspaceLoc]) s).
Proof.
  intros Hpre Hroot Hws rootLoc workspaceLoc.
  rewrite <- (with_trace_id s) at 1.
  by apply findRegistry_first_from.
Qed.

Lemma findRegistry_first_common_witness :
  findRegistry Monorepo.world [("yarn", "yarn.json"); ("npm", "package.json")]
    Monorepo.fresh
  = (Ok (Some ("/repo/package.json", "/repo/packages/b/package.json")),
     with_trace [FsExists "/repo/yarn.json"; FsExists "/repo/package.json";
                 FsExists "/repo/packages/b/package.json"] Monorepo.fresh).
Proof.
  apply (findRegistry_first_common Monorepo.world Monorepo.fresh
           [("yarn", "yarn.json")] [] "npm" "package.json").
  - repeat constructor.
  - reflexivity.
  - reflexivity.
Defined.

(** ** What discovery may change *)

Ltac frame_done :=
  unfold onlyLogsAndSiblings; cbn;
  split_and!; try reflexivity;
  try (eexists; rewrite <- ?app_assoc; reflexivity);
  try discriminate.

(** X2: whatever [setSiblingWorkspaces] meets, it leaves the flags, the
    configuration, the resolver and the origin tables alone and only adds to
    the trace; and when it throws, because a manifest cannot be read or
    normalized or the workspaces cannot be resolved, the sibling list is the
    one it found. *)
Theorem setSiblingWorkspaces_frame (W : World) (s : Isolate) :
  let run := setSiblingWorkspaces W s in
  onlyLogsAndSiblings s run.2
  /\ (forall e, run.1 = Throw e -> siblingWorkspaces run.2 = siblingWorkspaces s).
Proof.
  cbv zeta.
  enough (exists r s', setSiblingWorkspaces W s = (r, s')
                       /\ onlyLogsAndSiblings s s'
                       /\ (forall e, r = Throw e ->
                                      siblingWorkspaces s' = siblingWorkspaces s))
    as (r & s' & -> & Hframe & Hthrow) by done.
  destruct (findRegistry_frame W (registries W) s) as (evs & found & Hrun).
  unfold setSiblingWorkspaces. unfold bind at 1. rewrite Hrun.
  destruct found as [[rootLoc workspaceLoc]|].
  - rewrite !bind_this.
    unfold readManifest, bind, emit, lift, set_siblingWorkspaces, ret.
    cbn [config with_trace with_event fst snd].
    destruct (config_readJson W rootLoc) as [rawRoot|];
      [|eexists _, _; split; [done|split; [frame_done|done]]].
    destruct (normalizeManifest W rawRoot _ true) as [rootManifest|];
      [|eexists _, _; split; [done|split; [frame_done|done]]].
    destruct (config_readJson W workspaceLoc) as [rawWs|];
      [|eexists _, _; split; [done|split; [frame_done|done]]].
    destruct (normalizeManifest W rawWs _ false) as [wsManifest|];
      [|eexists _, _; split; [done|split; [frame_done|done]]].
    destruct (config_resolveWorkspaces W _ rootManifest) as [allWorkspaces|];
      [|eexists _, _; split; [done|split; [frame_done|done]]].
    destruct (siblingPatterns allWorkspaces (name wsManifest)) as [sibs|];
      eexists _, _; (split; [done|split; [frame_done|done]]).
  - eexists _, _. split; [done|split; [frame_done|done]].
Qed.

Lemma setSiblingWorkspaces_frame_witness :
  onlyLogsAndSiblings Monorepo.fresh (setSiblingWorkspaces Monorepo.world Monorepo.fresh).2.
Proof.
  exact (proj1 (setSiblingWorkspaces_frame Monorepo.world Monorepo.fresh)).
Defined.

(** ** [init] away from the root *)

(** X3: when the working directory is not a configured workspace root,
    [init] runs sibling discovery first; if discovery throws, [init] throws
    the same error and the installer is not started; otherwise the installer
    is started on the instance discovery left, and its answer and final
    state are those of [init]. *)
Theorem init_away_from_root (W : World) (s : Isolate) :
  cwdIsWorkspaceRoot (config s) = false ->
  let discovery := setSiblingWorkspaces W s in
  init W s
  = match discovery.1 with
    | Ok _ => Install_init W (with_event InstallInit discovery.2)
    | Throw e => (Throw e, discovery.2)
    end.
Proof.
  intros Hroot discovery. unfold init. rewrite bind_this, Hroot.
  unfold bind at 1. fold discovery.
  destruct discovery as [[[]|e] s1]; [|done]. cbn [fst snd].
  unfold bind, emit.
  by destruct (Install_init W (with_event InstallInit s1)) as [[pats|e] s2].
Qed.

Lemma init_away_from_root_witness :
  init Monorepo.world Monorepo.fresh
  = (Ok [], with_event InstallInit Scenario.discovered).
Proof.
  exact (init_away_from_root Monorepo.world Monorepo.fresh eq_refl).
Defined.

(** ** Folding: the fatal invariants *)

Lemma iterateAdded_loop_app {A} (E : Collaborators)
    (f : string -> string -> string -> string -> string -> A -> M A)
    (origins : list string) (pre rest : list string) :
  forall (acc : A) (s : Isolate),
    iterateAdded_loop E f origins (pre ++ rest) acc s
    = match iterateAdded_loop E f origins pre acc s with
      | (Ok acc', s') => iterateAdded_loop E f origins rest acc' s'
      | (Throw e, s') => (Throw e, s')
      end.
Proof.
  induction pre as [|pat pre IH]; intros acc s; [done|].
  cbn [app iterateAdded_loop]. rewrite !bind_this.
  destruct (getResolvedPattern (resolver s) pat) as [pkg|]; [|done].
  destruct (_reference pkg) as [ref|]; [|done].
  unfold bind.
  destruct (f pat (registry ref) _ (name pkg) _ acc s) as [[acc'|e] s']; [|done].
  apply IH.
Qed.

Lemma addedInfo_reads (E : Collaborators) (s : Isolate) (pat t n v : string) :
  addedInfo E s pat = Some (t, n, v) ->
  exists pkg ref,
    getResolvedPattern (resolver s) pat = Some pkg
    /\ _reference pkg = Some ref
    /\ t = or_else (originOf (rootPatternsToOrigin s) (keys (rootPatternsToOrigin s))
                      (name pkg)) (flagToOrigin s)
    /\ n = name pkg
    /\ v = getPatternVersion E s pat pkg.
Proof.
  unfold addedInfo. intros Hinfo.
  destruct (getResolvedPattern (resolver s) pat) as [pkg|]; [|done].
  cbn [mbind option_bind] in Hinfo.
  destruct (_reference pkg) as [ref|] eqn:Href; [|done].
  cbn [mbind option_bind] in Hinfo. injection Hinfo as <- <- <-.
  by exists pkg, ref.
Qed.

Lemma foldAdded_missing (i : nat) (pats : list string) (pat reg t n v : string)
    (acc : list string) (s : Isolate) :
  pat ∉ acc ->
  foldAdded i pats pat reg t n v acc s
  = (Throw (InvariantViolation (formatMessage (expectAdded pat pats))), s).
Proof.
  intros Hnot. unfold foldAdded.
  rewrite (filter_keeps_all (fun p => p ≠ pat) acc) by (intros p Hp ->; contradiction).
  by rewrite Nat.sub_diag.
Qed.

Lemma fold_stops_at_missing_pattern
    (E : Collaborators) (s : Isolate) (pats : list string) (cwdManifest : Manifest)
    (target : nat) (m : Manifest) (pre post : list string) (pat : string) :
  patterns (resolver s) !! (name cwdManifest +:+ "@" +:+ version cwdManifest) = Some target ->
  packages (resolver s) !! target = Some m ->
  is_Some (_reference m) ->
  siblingWorkspaces s = Some (pre ++ pat :: post) ->
  NoDup pre ->
  Forall (fun p => p ∈ pats /\ is_Some (addedInfo E s p)) pre ->
  is_Some (addedInfo E s pat) ->
  pat ∉ pats \/ pat ∈ pre ->
  exists m',
    preparePatternsForLinking E pats cwdManifest false s
    = (Throw (InvariantViolation (formatMessage (expectAdded pat pats))), with_cell target m' s)
    /\ backlinks m'
       = backlinks m ++ filter (fun p => alreadyRecorded E s m p = false) pre
    /\ name m' = name m /\ version m' = version m /\ is_Some (_reference m').
Proof.
  intros Htarget Hm Href Hs Hnd Hall [[[t n] v] Hinfo] Hmissing.
  destruct (iterateAdded_loop_fold E target pats pre pats s m Hm Href Hnd Hall)
    as (m' & Hrun & Hn & Hv & Href' & _ & _ & _ & Hback).
  exists m'. split; [|by split_and!].
  unfold preparePatternsForLinking. rewrite bind_this.
  unfold getStrictResolvedPattern. rewrite Htarget, Hm.
  unfold _iterateAddedPackages. rewrite bind_this, Hs.
  unfold bind at 1. cbn [iterable ret].
  rewrite iterateAdded_loop_app, Hrun.
  rewrite <- (addedInfo_with_cell E target m m' s pat Hm Hn Hv Href Href') in Hinfo.
  apply addedInfo_reads in Hinfo as (pkg & ref & Hpkg & Hpref & _).
  cbn [iterateAdded_loop]. rewrite bind_this, Hpkg, Hpref.
  unfold bind. rewrite foldAdded_missing; [done|].
  intros Hin. apply list_elem_of_filter in Hin as [Hnotpre Hinpats].
  destruct Hmissing; contradiction.
Qed.

(** X4: a sibling pattern that is not in the pattern list when its turn
    comes, because the list never held it or because the sibling list names
    it twice, stops [preparePatternsForLinking] with the invariant violation
    whose message is the text quoting the pattern and the list as the
    [invariant] package formats it, every [%s] in it replaced by
    [undefined]; nothing is rolled back: the target package keeps the
    backlinks pushed for the siblings before it. *)
Theorem fold_missing_pattern_is_fatal
    (E : Collaborators) (s : Isolate) (pats : list string) (cwdManifest : Manifest)
    (target : nat) (m : Manifest) (pre post : list string) (pat : string) :
  patterns (resolver s) !! (name cwdManifest +:+ "@" +:+ version cwdManifest) = Some target ->
  packages (resolver s) !! target = Some m ->
  is_Some (_reference m) ->
  siblingWorkspaces s = Some (pre ++ pat :: post) ->
  NoDup pre ->
  Forall (fun p => p ∈ pats /\ is_Some (addedInfo E s p)) pre ->
  is_Some (addedInfo E s pat) ->
  pat ∉ pats \/ pat ∈ pre ->
  exists m',
    preparePatternsForLinking E pats cwdManifest false s
    = (Throw (InvariantViolation (formatMessage (expectAdded pat pats))), with_cell target m' s)
    /\ backlinks m'
       = backlinks m ++ filter (fun p => alreadyRecorded E s m p = false) pre.
Proof.
  intros Htarget Hm Href Hs Hnd Hall Hinfo Hmissing.
  destruct (fold_stops_at_missing_pattern E s pats cwdManifest target m pre post pat
              Htarget Hm Href Hs Hnd Hall Hinfo Hmissing) as (m' & Hrun & Hback & _).
  by exists m'.
Qed.

Lemma fold_missing_pattern_is_fatal_witness :
  let canonical := preparePatterns Sample.collaborators []
                     (Monorepo.withTilde Monorepo.afterResolution) in
  canonical.1 = Ok ["a@~1.0.0"; "c@~3.0.0"]
  /\ exists m',
       preparePatternsForLinking Sample.collaborators ["a@~1.0.0"; "c@~3.0.0"]
         (Monorepo.package "b" "2.0.0") false canonical.2
       = (Throw (InvariantViolation
                   "expect added pattern 'a@1.0.0' in the list: a@~1.0.0,c@~3.0.0"),
          with_cell 1 m' canonical.2)
       /\ backlinks m' = [].
Proof.
  cbv zeta. split; [vm_compute; reflexivity|].
  apply (fold_missing_pattern_is_fatal Sample.collaborators
           (preparePatterns Sample.collaborators []
              (Monorepo.withTilde Monorepo.afterResolution)).2
           ["a@~1.0.0"; "c@~3.0.0"] (Monorepo.package "b" "2.0.0") 1
           (Monorepo.package "b" "2.0.0") [] ["c@3.0.0"] "a@1.0.0").
  - vm_compute. reflexivity.
  - vm_compute. reflexivity.
  - by eexists.
  - vm_compute. reflexivity.
  - constructor.
  - constructor.
  - vm_compute. by eexists.
  - left. apply (bool_decide_unpack _). vm_compute. reflexivity.
Defined.

Lemma resolved_with_cell (i : nat) (m m' : Manifest) (s : Isolate) (pat : string) :
  packages (resolver s) !! i = Some m ->
  getResolvedPattern (resolver (with_cell i m' s)) pat
  = match patterns (resolver s) !! pat with
    | Some j => if decide (j = i) then Some m' else packages (resolver s) !! j
    | None => None
    end.
Proof.
  intros Hm. unfold getResolvedPattern. cbn.
  destruct (patterns (resolver s) !! pat) as [j|]; [|done]. cbn.
  destruct (decide (j = i)) as [->|Hne].
  - by rewrite lookup_insert_eq.
  - by rewrite lookup_insert_ne.
Qed.

(** X5: a sibling pattern that the resolver does not know, or whose package
    has no reference, stops [preparePatternsForLinking] with the invariant
    violation [missing package ...], the pattern in it formatted by the
    [invariant] package so that every [%s] reads [undefined], or
    [expected package reference], after the siblings before it have been
    folded. *)
Theorem fold_unresolved_sibling_is_fatal
    (E : Collaborators) (s : Isolate) (pats : list string) (cwdManifest : Manifest)
    (target : nat) (m : Manifest) (pre post : list string) (pat : string) :
  patterns (resolver s) !! (name cwdManifest +:+ "@" +:+ version cwdManifest) = Some target ->
  packages (resolver s) !! target = Some m ->
  is_Some (_reference m) ->
  siblingWorkspaces s = Some (pre ++ pat :: post) ->
  NoDup pre ->
  Forall (fun p => p ∈ pats /\ is_Some (addedInfo E s p)) pre ->
  getResolvedPattern (resolver s) pat ≫= _reference = None ->
  exists m',
    preparePatternsForLinking E pats cwdManifest false s
    = (Throw (InvariantViolation
                (formatMessage
                   (match getResolvedPattern (resolver s) pat with
                    | None => "missing package " +:+ pat
                    | Some _ => "expected package reference"
                    end))),
       with_cell target m' s)
    /\ backlinks m'
       = backlinks m ++ filter (fun p => alreadyRecorded E s m p = false) pre.
Proof.
  intros Htarget Hm Href Hs Hnd Hall Hnone.
  destruct (iterateAdded_loop_fold E target pats pre pats s m Hm Href Hnd Hall)
    as (m' & Hrun & Hn & Hv & Href' & _ & _ & _ & Hback).
  exists m'. split; [|exact Hback].
  unfold preparePatternsForLinking. rewrite bind_this.
  unfold getStrictResolvedPattern. rewrite Htarget, Hm.
  unfold _iterateAddedPackages. rewrite bind_this, Hs.
  unfold bind at 1. cbn [iterable ret].
  rewrite iterateAdded_loop_app, Hrun.
  cbn [iterateAdded_loop]. rewrite bind_this.
  rewrite (resolved_with_cell target m m' s pat Hm).
  unfold getResolvedPattern in Hnone |- *.
  destruct (patterns (resolver s) !! pat) as [j|]; [|done].
  cbn [mbind option_bind] in Hnone |- *.
  destruct (decide (j = target)) as [->|Hne].
  - rewrite Hm in Hnone. cbn in Hnone. destruct Href as [ref Href].
    congruence.
  - destruct (packages (resolver s) !! j) as [pkg|]; [|done].
    cbn in Hnone. by rewrite Hnone.
Qed.

Lemma fold_unresolved_sibling_is_fatal_witness :
  (exists m',
     preparePatternsForLinking Sample.collaborators ["a@1.0.0"; "d@4.0.0"]
       (Monorepo.package "b" "2.0.0") false
       (with_siblingWorkspaces ["a@1.0.0"; "d@4.0.0"] Monorepo.afterResolution)
     = (Throw (InvariantViolation "missing package d@4.0.0"),
        with_cell 1 m'
          (with_siblingWorkspaces ["a@1.0.0"; "d@4.0.0"] Monorepo.afterResolution))
     /\ backlinks m' = ["a@1.0.0"])
  /\ (exists m',
        preparePatternsForLinking Sample.collaborators ["%s@1.0.0"]
          (Monorepo.package "b" "2.0.0") false
          (with_siblingWorkspaces ["%s@1.0.0"] Monorepo.afterResolution)
        = (Throw (InvariantViolation "missing package undefined@1.0.0"),
           with_cell 1 m' (with_siblingWorkspaces ["%s@1.0.0"] Monorepo.afterResolution))).
Proof.
  split.
  - destruct (fold_unresolved_sibling_is_fatal Sample.collaborators
                (with_siblingWorkspaces ["a@1.0.0"; "d@4.0.0"] Monorepo.afterResolution)
                ["a@1.0.0"; "d@4.0.0"] (Monorepo.package "b" "2.0.0") 1
                (Monorepo.package "b" "2.0.0") ["a@1.0.0"] [] "d@4.0.0")
      as (m' & Hrun & Hback).
    + reflexivity.
    + reflexivity.
    + by eexists.
    + reflexivity.
    + apply (bool_decide_unpack _). vm_compute. reflexivity.
    + repeat constructor; first [ apply (bool_decide_unpack _); vm_compute; reflexivity
                                | by eexists ].
    + reflexivity.
    + exists m'. split; [exact Hrun|]. rewrite Hback. reflexivity.
  - destruct (fold_unresolved_sibling_is_fatal Sample.collaborators
                (with_siblingWorkspaces ["%s@1.0.0"] Monorepo.afterResolution)
                ["%s@1.0.0"] (Monorepo.package "b" "2.0.0") 1
                (Monorepo.package "b" "2.0.0") [] [] "%s@1.0.0")
      as (m' & Hrun & _).
    + reflexivity.
    + reflexivity.
    + by eexists.
    + reflexivity.
    + constructor.
    + constructor.
    + reflexivity.
    + exists m'. exact Hrun.
Defined.

(** ** The dependency type of a sibling *)

Lemma originOf_fold (origins : list (string * string)) (pkgName : string)
    (l : list (string * string)) :
  (forall k v, (k, v) ∈ l -> get origins k = Some v) ->
  forall acc,
    fold_left (fun acc prev =>
                 if startsWith (pkgName +:+ "@") prev then get origins prev else acc)
              (keys l) acc
    = match last (filter (fun e => startsWith (pkgName +:+ "@") e.1 = true) l) with
      | Some e => Some e.2
      | None => acc
      end.
Proof.
  unfold keys. induction l as [|[k v] l IH]; intros Hget acc; [done|].
  cbn [fmap list_fmap fold_left fst]. rewrite IH by (intros; apply Hget; by right).
  rewrite filter_cons. cbn [fst].
  destruct (startsWith (pkgName +:+ "@") k) eqn:Hk.
  - rewrite decide_True by done. rewrite last_cons.
    rewrite (Hget k v) by (by left).
    by destruct (last (filter _ l)).
  - rewrite decide_False by done. reflexivity.
Qed.

Lemma filter_drops_all {A} (P : A -> Prop) `{!forall x, Decision (P x)} (l : list A) :
  Forall (fun x => ~ P x) l -> filter P l = [].
Proof.
  induction 1 as [|x l Hx _ IH]; [done|]. by rewrite filter_cons_False.
Qed.

(** X6: the dependency type looked up for a sibling is the origin recorded
    for the last root pattern, in key order, that starts with the package
    name followed by [@]; with no such pattern the lookup finds nothing and
    the configured default origin is used. *)
Theorem originOf_last_match (origins : list (string * string)) (pkgName defaultOrigin : string) :
  NoDup (keys origins) ->
  originOf origins (keys origins) pkgName = lastOrigin origins pkgName
  /\ (Forall (fun e => startsWith (pkgName +:+ "@") e.1 = false) origins ->
      or_else (originOf origins (keys origins) pkgName) defaultOrigin = defaultOrigin).
Proof.
  intros Hnd.
  assert (Hlast : originOf origins (keys origins) pkgName = lastOrigin origins pkgName).
  { unfold originOf, lastOrigin.
    rewrite (originOf_fold origins pkgName origins)
      by (intros k v Hin; by apply get_of_entry).
    by destruct (last (filter _ origins)). }
  split; [exact Hlast|].
  intros Hnone. rewrite Hlast. unfold lastOrigin.
  rewrite filter_drops_all; [done|].
  eapply Forall_impl; [exact Hnone|]. intros e He. cbn. by rewrite He.
Qed.

Lemma originOf_last_match_witness :
  originOf [("a@^1.0.0", "devDependencies"); ("ab@1.0.0", "optionalDependencies");
            ("a@~1.2.0", "dependencies")]
           ["a@^1.0.0"; "ab@1.0.0"; "a@~1.2.0"] "a"
  = Some "dependencies".
Proof.
  apply (originOf_last_match
           [("a@^1.0.0", "devDependencies"); ("ab@1.0.0", "optionalDependencies");
            ("a@~1.2.0", "dependencies")] "a" "dependencies").
  apply (bool_decide_unpack _). vm_compute. reflexivity.
Defined.

(** ** The version policy never answers the empty specifier *)

Lemma append_nonempty (p v : string) : v <> "" -> p +:+ v <> "".
Proof. destruct p; [done|]. discriminate. Qed.

Lemma truthy_nonempty (v : string) : truthy v = true -> v <> "".
Proof. intros Htr ->. discriminate. Qed.

(** X7: whatever the pattern, the flags, the configured prefix and the
    imported helpers are, [getPatternVersion] answers a non-empty version
    specifier as long as the resolved package has a version: the pattern or
    range it keeps is non-empty, and anything else ends in the package
    version. *)
Theorem getPatternVersion_nonempty
    (E : Collaborators) (s : Isolate) (pat : string) (pkg : Manifest) :
  version pkg <> "" ->
  getPatternVersion E s pat pkg <> ""
  /\ (getPatternVersion E s pat pkg = pat
      \/ getPatternVersion E s pat pkg = range (normalizePattern E pat)
      \/ exists prefix, getPatternVersion E s pat pkg = prefix +:+ version pkg
                        /\ (prefix = "~" \/ prefix = "" \/ prefix = save_prefix (config s))).
Proof.
  intros Hv. unfold getPatternVersion.
  set (ver := if getExoticResolver E pat then Some pat
              else if hasVersion (normalizePattern E pat)
                      && truthy (range (normalizePattern E pat))
                      && (semver_satisfies E (version pkg) (range (normalizePattern E pat))
                          || getExoticResolver E (range (normalizePattern E pat)))
                   then Some (range (normalizePattern E pat)) else None).
  assert (Hver : ver = None \/ ver = Some pat
                 \/ ver = Some (range (normalizePattern E pat))).
  { subst ver. destruct (getExoticResolver E pat); [auto|].
    destruct (_ && _ && _); auto. }
  destruct (negb (truthy_opt ver) || from_option (semver_valid E) false ver) eqn:Hcond.
  - assert (Hprefix : forall p, p +:+ version pkg <> "") by (intros; by apply append_nonempty).
    split; [apply Hprefix|]. right. right. eexists. split; [reflexivity|].
    destruct (tilde (flags s)); [by left|].
    destruct (truthy_opt ver || _) eqn:Hexact; [by right; left|].
    right. right. unfold or_else.
    destruct (truthy (save_prefix (config s))) eqn:Htr; [done|].
    exfalso. unfold truthy in Htr. apply negb_false_iff in Htr.
    rewrite Htr, !orb_true_r in Hexact. discriminate.
  - apply orb_false_elim in Hcond as [Htr _]. apply negb_false_iff in Htr.
    destruct ver as [v|]; [|done]. cbn in Htr |- *.
    split; [by apply truthy_nonempty|].
    destruct Hver as [?|[Hver|Hver]]; [done|..]; injection Hver as ->; auto.
Qed.

Lemma getPatternVersion_nonempty_witness :
  getPatternVersion Sample.collaborators Monorepo.afterResolution "a@1.0.0"
    (Monorepo.package "a" "1.0.0") <> ""
  /\ getPatternVersion Sample.collaborators Monorepo.afterResolution "a"
       (Monorepo.package "a" "1.0.0") = "^1.0.0".
Proof.
  split; [|reflexivity].
  apply (getPatternVersion_nonempty Sample.collaborators Monorepo.afterResolution
           "a@1.0.0" (Monorepo.package "a" "1.0.0")).
  discriminate.
Defined.

(** ** Canonicalisation: what is returned and what is aliased *)

Lemma preparePatterns_loop_shape (E : Collaborators) (sibs : list string) :
  forall (acc : list string) (s : Isolate) (out : list string) (s' : Isolate),
    preparePatterns_loop E sibs acc s = (Ok out, s') ->
    exists added,
      out = acc ++ added
      /\ length added = length sibs
      /\ trace s' = trace s ++ aliases (zip sibs added).
Proof.
  induction sibs as [|pat rest IH]; intros acc s out s' Hrun.
  - cbn in Hrun. injection Hrun as <- <-. exists []. by rewrite !app_nil_r.
  - cbn [preparePatterns_loop] in Hrun. rewrite bind_this in Hrun.
    destruct (getResolvedPattern (resolver s) pat) as [pkg|]; [|done].
    set (q := name pkg +:+ "@" +:+ getPatternVersion E s pat pkg) in *.
    destruct (String.eqb q pat) eqn:Hq.
    + apply IH in Hrun as (added & -> & Hlen & Htr).
      exists (q :: added). split_and!.
      * by rewrite <- app_assoc.
      * cbn. by rewrite Hlen.
      * rewrite Htr. unfold aliases. cbn. by rewrite Hq.
    + unfold resolver_replacePattern in Hrun. unfold bind at 1 2 3, this, emit in Hrun.
      cbn [fst snd] in Hrun. unfold set_resolver in Hrun.
      apply IH in Hrun as (added & -> & Hlen & Htr). cbn in Htr.
      exists (q :: added). split_and!.
      * by rewrite <- app_assoc.
      * cbn. by rewrite Hlen.
      * rewrite Htr, <- app_assoc. unfold aliases. cbn. by rewrite Hq.
Qed.

(** X8: when [preparePatterns] returns, its list is the given patterns,
    unchanged and in order, followed by exactly one pattern per sibling; and
    the calls of [replacePattern] it made are, in sibling order, exactly
    those for the siblings whose appended pattern differs from the sibling
    pattern, each from the sibling pattern to the appended one. *)
Theorem preparePatterns_appends_and_aliases
    (E : Collaborators) (s s' : Isolate) (sibs pats out : list string) :
  siblingWorkspaces s = Some sibs ->
  preparePatterns E pats s = (Ok out, s') ->
  exists added,
    out = pats ++ added
    /\ length added = length sibs
    /\ trace s' = trace s ++ aliases (zip sibs added).
Proof.
  intros Hs. unfold preparePatterns. with_siblings Hs.
  apply preparePatterns_loop_shape.
Qed.

Lemma preparePatterns_appends_and_aliases_witness :
  exists added,
    ["lodash@^4.17.0"; "a@~1.0.0"; "c@~3.0.0"] = ["lodash@^4.17.0"] ++ added
    /\ length added = 2%nat
    /\ trace (preparePatterns Sample.collaborators ["lodash@^4.17.0"]
                (Monorepo.withTilde Monorepo.afterResolution)).2
       = [] ++ aliases (zip ["a@1.0.0"; "c@3.0.0"] added).
Proof.
  apply (preparePatterns_appends_and_aliases Sample.collaborators
           (Monorepo.withTilde Monorepo.afterResolution) _
           ["a@1.0.0"; "c@3.0.0"] ["lodash@^4.17.0"]).
  - reflexivity.
  - vm_compute. reflexivity.
Defined.

Lemma preparePatterns_loop_app (E : Collaborators) (pre rest : list string) :
  forall (acc : list string) (s : Isolate),
    preparePatterns_loop E (pre ++ rest) acc s
    = match preparePatterns_loop E pre acc s with
      | (Ok acc', s') => preparePatterns_loop E rest acc' s'
      | (Throw e, s') => (Throw e, s')
      end.
Proof.
  induction pre as [|pat pre IH]; intros acc s; [done|].
  cbn [app preparePatterns_loop]. rewrite !bind_this.
  destruct (getResolvedPattern (resolver s) pat) as [pkg|]; [|done].
  destruct (String.eqb _ pat); [apply IH|].
  unfold bind at 1 2.
  destruct (resolver_replacePattern pat _ s) as [[[]|e] s1]; [apply IH|done].
Qed.

(** X9: a sibling pattern the resolver does not know makes
    [preparePatterns] throw a TypeError when its turn comes; the aliases
    made for the siblings before it stay in place. *)
Theorem preparePatterns_unresolved_sibling_throws
    (E : Collaborators) (s s1 : Isolate) (pats acc pre post : list string) (pat : string) :
  siblingWorkspaces s = Some (pre ++ pat :: post) ->
  preparePatterns_loop E pre pats s = (Ok acc, s1) ->
  getResolvedPattern (resolver s1) pat = None ->
  preparePatterns E pats s = (Throw (TypeError "pkg is undefined"), s1).
Proof.
  intros Hs Hpre Hnone. unfold preparePatterns. with_siblings Hs.
  rewrite preparePatterns_loop_app, Hpre.
  cbn [preparePatterns_loop]. by rewrite bind_this, Hnone.
Qed.

Lemma preparePatterns_unresolved_sibling_throws_witness :
  let s := with_siblingWorkspaces ["a@1.0.0"; "d@4.0.0"]
             (Monorepo.withTilde Monorepo.afterResolution) in
  exists s1,
    preparePatterns Sample.collaborators [] s = (Throw (TypeError "pkg is undefined"), s1)
    /\ trace s1 = [ReplacePattern "a@1.0.0" "a@~1.0.0"].
Proof.
  cbv zeta. eexists. split.
  - apply (preparePatterns_unresolved_sibling_throws Sample.collaborators _ _ []
             ["a@~1.0.0"] ["a@1.0.0"] [] "d@4.0.0").
    + reflexivity.
    + vm_compute. reflexivity.
    + vm_compute. reflexivity.
  - vm_compute. reflexivity.
Defined.

(** ** The earlier revisions: which declared dependencies are kept *)

Lemma findRegistry_reads_config (W : World) (regs : list (string * string)) :
  forall s1 s2, config s1 = config s2 ->
                (findRegistry W regs s1).1 = (findRegistry W regs s2).1.
Proof.
  induction regs as [|[r filename] regs IH]; intros s1 s2 Hc; [done|].
  cbn [findRegistry]. rewrite !bind_this.
  unfold exists_, bind, emit, ret. rewrite Hc.
  destruct (fs_exists W (path_join W (lockfileFolder (config s2)) filename)); cbn [negb].
  - destruct (fs_exists W (path_join W (cwd (config s2)) filename)); cbn [negb]; [done|].
    by apply IH.
  - by apply IH.
Qed.

Lemma get_of_key {A} (o : list (string * A)) (k : string) :
  k ∈ keys o <-> is_Some (get o k).
Proof.
  unfold keys. induction o as [|[k' v] o IH]; cbn.
  - split; [by intros ?%elem_of_nil|by intros []].
  - destruct (String.eqb_spec k' k) as [->|Hne].
    + split; [by eexists|by left].
    + rewrite elem_of_cons, IH. split; [|by right]. by intros [?|?].
Qed.

Lemma declared_siblings (allWorkspaces : list (string * Workspace)) (declared : list string) :
  map_result (workspacePattern allWorkspaces)
             (filter (fun w => w ∈ keys allWorkspaces) declared)
  = Ok (omap (declaredSibling allWorkspaces) declared).
Proof.
  induction declared as [|w declared IH]; [done|].
  rewrite filter_cons. unfold declaredSibling at 1. cbn [omap list_omap].
  destruct (decide (w ∈ keys allWorkspaces)) as [Hin|Hnot].
  - apply get_of_key in Hin as [ws Hws].
    cbn [map_result]. unfold workspacePattern at 1. rewrite Hws, IH. reflexivity.
  - destruct (get allWorkspaces w) eqn:Hws.
    + exfalso. apply Hnot, get_of_key. by eexists.
    + exact IH.
Qed.

Lemma readBoth_ok (W : Earlier.EarlyWorld) (s : Isolate) (rootLoc workspaceLoc : string)
    (workspaceManifest : Earlier.DeclaredManifest)
    (allWorkspaces : list (string * Workspace)) :
  readable W (config s) rootLoc workspaceLoc workspaceManifest allWorkspaces ->
  exists s',
    Earlier.readBoth W rootLoc workspaceLoc s = (Ok (workspaceManifest, allWorkspaces), s')
    /\ config s' = config s.
Proof.
  intros (rawRoot & rootManifest & rawWs & HreadRoot & HnormRoot & HreadWs & HnormWs & Hres).
  eexists. split.
  - unfold Earlier.readBoth. rewrite bind_this.
    unfold Earlier.readManifest, bind, emit, lift, ret.
    rewrite HreadRoot, HnormRoot, HreadWs, HnormWs, Hres. reflexivity.
  - reflexivity.
Qed.

Lemma setSiblingDeps_declared_workspaces_aux
    (W : Earlier.EarlyWorld) (s : Isolate) (rootLoc workspaceLoc : string)
    (workspaceManifest : Earlier.DeclaredManifest)
    (allWorkspaces : list (string * Workspace)) :
  (findRegistry (Earlier.files W) (registries (Earlier.files W)) s).1
  = Ok (Some (rootLoc, workspaceLoc)) ->
  readable W (config s) rootLoc workspaceLoc workspaceManifest allWorkspaces ->
  exists s',
    RevisionTwo._setSiblingDeps W s = (Ok tt, s')
    /\ siblingWorkspaces s'
       = Some (omap (declaredSibling allWorkspaces)
                    (Earlier._getAllWorkspaceDeps workspaceManifest)).
Proof.
  intros Hfind Hread.
  set (s0 := with_siblingWorkspaces [] s).
  destruct (findRegistry_frame (Earlier.files W) (registries (Earlier.files W)) s0)
    as (evs & found & Hrun).
  rewrite (findRegistry_reads_config _ _ s s0 eq_refl), Hrun in Hfind.
  cbn in Hfind. injection Hfind as ->.
  destruct (readBoth_ok W (with_trace (trace s0 ++ evs) s0) rootLoc workspaceLoc
              workspaceManifest allWorkspaces Hread) as (s1 & Hboth & _).
  eexists. split.
  - unfold RevisionTwo._setSiblingDeps. unfold bind at 1. unfold set_siblingWorkspaces at 1.
    fold s0. unfold bind at 1. rewrite Hrun. unfold bind at 1. rewrite Hboth.
    unfold bind, set_siblingWorkspaces, lift. rewrite declared_siblings. reflexivity.
  - reflexivity.
Qed.

(** X10: when both manifests are read and the workspaces resolved, the
    second revision keeps exactly the declared dependencies of the workspace
    manifest ([dependencies], then [devDependencies], then
    [optionalDependencies], each in key order) that are members of the
    workspace set, each as [name@version] with the member's version; a
    declared package that is no workspace, and a workspace that is not
    declared, are left out. *)
Theorem setSiblingDeps_declared_workspaces
    (W : Earlier.EarlyWorld) (s : Isolate) (rootLoc workspaceLoc : string)
    (workspaceManifest : Earlier.DeclaredManifest)
    (allWorkspaces : list (string * Workspace)) :
  (findRegistry (Earlier.files W) (registries (Earlier.files W)) s).1
  = Ok (Some (rootLoc, workspaceLoc)) ->
  readable W (config s) rootLoc workspaceLoc workspaceManifest allWorkspaces ->
  let declared := Earlier._getAllWorkspaceDeps workspaceManifest in
  exists s',
    RevisionTwo._setSiblingDeps W s = (Ok tt, s')
    /\ siblingWorkspaces s' = Some (omap (declaredSibling allWorkspaces) declared)
    /\ declared
       = from_option keys [] (get (Earlier.fields workspaceManifest) "dependencies")
         ++ from_option keys [] (get (Earlier.fields workspaceManifest) "devDependencies")
         ++ from_option keys [] (get (Earlier.fields workspaceManifest) "optionalDependencies")
    /\ (forall pat, pat ∈ omap (declaredSibling allWorkspaces) declared <->
          exists w ws, w ∈ declared /\ get allWorkspaces w = Some ws
                       /\ pat = w +:+ "@" +:+ version (manifest ws)).
Proof.
  intros Hfind Hread declared.
  destruct (setSiblingDeps_declared_workspaces_aux W s rootLoc workspaceLoc
              workspaceManifest allWorkspaces Hfind Hread) as (s' & Hrun & Hsibs).
  exists s'. split_and!.
  - exact Hrun.
  - exact Hsibs.
  - subst declared. unfold Earlier._getAllWorkspaceDeps. cbn [fold_left Earlier.depTypes].
    destruct (get _ "dependencies"), (get _ "devDependencies"),
      (get _ "optionalDependencies"); cbn; by rewrite ?app_nil_r, <- ?app_assoc.
  - intros pat. rewrite list_elem_of_omap. unfold declaredSibling. split.
    + intros (w & Hin & Hsome). destruct (get allWorkspaces w) as [ws|] eqn:Hws; [|done].
      cbn in Hsome. injection Hsome as <-. by exists w, ws.
    + intros (w & ws & Hin & Hws & ->). exists w. by rewrite Hws.
Qed.

Lemma setSiblingDeps_declared_workspaces_witness :
  exists s',
    RevisionTwo._setSiblingDeps EarlyRepo.world Monorepo.fresh = (Ok tt, s')
    /\ siblingWorkspaces s' = Some ["a@1.0.0"; "c@3.0.0"]
    /\ Earlier._getAllWorkspaceDeps EarlyRepo.b = ["a"; "lodash"; "jest"; "c"].
Proof.
  destruct (setSiblingDeps_declared_workspaces EarlyRepo.world Monorepo.fresh
              "/repo/package.json" "/repo/packages/b/package.json"
              EarlyRepo.b Monorepo.allWorkspaces)
    as (s' & Hrun & Hsibs & _).
  - reflexivity.
  - exists EarlyRepo.root, EarlyRepo.root, EarlyRepo.b. repeat split; reflexivity.
  - exists s'. split_and!; [exact Hrun | by rewrite Hsibs | reflexivity].
Defined.

Lemma filter_partition_length {A} (P : A -> Prop) `{!forall x, Decision (P x)} (l : list A) :
  (length (filter P l) + length (filter (fun x => ~ P x) l) = length l)%nat.
Proof.
  induction l as [|x l IH]; [done|]. rewrite !filter_cons.
  destruct (decide (P x)).
  - rewrite decide_False by tauto. cbn. lia.
  - rewrite decide_True by done. cbn. lia.
Qed.

Lemma omap_declared_length (allWorkspaces : list (string * Workspace)) (declared : list string) :
  length (omap (declaredSibling allWorkspaces) declared)
  = length (filter (fun w => w ∈ keys allWorkspaces) declared).
Proof.
  induction declared as [|w declared IH]; [done|].
  rewrite filter_cons. unfold declaredSibling at 1. cbn [omap list_omap].
  destruct (decide (w ∈ keys allWorkspaces)) as [Hin|Hnot].
  - apply get_of_key in Hin as [ws ->].
    cbn [fmap option_fmap option_map length]. f_equal. exact IH.
  - destruct (get allWorkspaces w) eqn:Hws; [|exact IH].
    exfalso. apply Hnot, get_of_key. by eexists.
Qed.

(** X11: on the same manifests the first revision keeps exactly the declared
    dependencies that are not members of the workspace set, by name and in
    declaration order, so the first and the second revision split the
    declared dependencies between them: every declared name is kept by
    exactly one of the two, and the two lists together are as long as the
    declaration. *)
Theorem setNonWorkspaceDeps_complements
    (W : Earlier.EarlyWorld) (s : Isolate) (rootLoc workspaceLoc : string)
    (workspaceManifest : Earlier.DeclaredManifest)
    (allWorkspaces : list (string * Workspace)) :
  (findRegistry (Earlier.files W) (registries (Earlier.files W)) s).1
  = Ok (Some (rootLoc, workspaceLoc)) ->
  readable W (config s) rootLoc workspaceLoc workspaceManifest allWorkspaces ->
  let declared := Earlier._getAllWorkspaceDeps workspaceManifest in
  exists s1 s2 excluded injected,
    RevisionOne.setNonWorkspaceDeps W s = (Ok tt, s1)
    /\ RevisionTwo._setSiblingDeps W s = (Ok tt, s2)
    /\ siblingWorkspaces s1 = Some excluded
    /\ siblingWorkspaces s2 = Some injected
    /\ excluded = filter (fun w => w ∉ keys allWorkspaces) declared
    /\ (forall w, w ∈ excluded <-> w ∈ declared /\ declaredSibling allWorkspaces w = None)
    /\ (length excluded + length injected = length declared)%nat.
Proof.
  intros Hfind Hread declared.
  destruct (setSiblingDeps_declared_workspaces_aux W s rootLoc workspaceLoc
              workspaceManifest allWorkspaces Hfind Hread) as (s2 & Hrun2 & Hsibs2).
  set (s0 := with_siblingWorkspaces [] s).
  destruct (findRegistry_frame (Earlier.files W) (registries (Earlier.files W)) s0)
    as (evs & found & Hrun).
  rewrite (findRegistry_reads_config _ _ s s0 eq_refl), Hrun in Hfind.
  cbn in Hfind. injection Hfind as ->.
  destruct (readBoth_ok W (with_trace (trace s0 ++ evs) s0) rootLoc workspaceLoc
              workspaceManifest allWorkspaces Hread) as (s1 & Hboth & _).
  eexists _, s2, _, _. split_and!.
  - unfold RevisionOne.setNonWorkspaceDeps. unfold bind at 1.
    unfold set_siblingWorkspaces at 1. fold s0. unfold bind at 1. rewrite Hrun.
    unfold bind at 1. rewrite Hboth. reflexivity.
  - exact Hrun2.
  - reflexivity.
  - exact Hsibs2.
  - reflexivity.
  - intros w. rewrite list_elem_of_filter. unfold declaredSibling.
    rewrite get_of_key. split.
    + intros [Hnot Hin]. split; [done|].
      destruct (get allWorkspaces w); [|done]. exfalso. apply Hnot. by eexists.
    + intros [Hin Hnone]. split; [|done]. intros [ws Hws]. by rewrite Hws in Hnone.
  - subst declared.
    rewrite (omap_declared_length allWorkspaces
               (Earlier._getAllWorkspaceDeps workspaceManifest)).
    pose proof (filter_partition_length (fun w => w ∈ keys allWorkspaces)
                  (Earlier._getAllWorkspaceDeps workspaceManifest)). lia.
Qed.

Lemma setNonWorkspaceDeps_complements_witness :
  exists s1 s2,
    RevisionOne.setNonWorkspaceDeps EarlyRepo.world Monorepo.fresh = (Ok tt, s1)
    /\ RevisionTwo._setSiblingDeps EarlyRepo.world Monorepo.fresh = (Ok tt, s2)
    /\ siblingWorkspaces s1 = Some ["lodash"; "jest"]
    /\ siblingWorkspaces s2 = Some ["a@1.0.0"; "c@3.0.0"].
Proof.
  destruct (setNonWorkspaceDeps_complements EarlyRepo.world Monorepo.fresh
              "/repo/package.json" "/repo/packages/b/package.json"
              EarlyRepo.b Monorepo.allWorkspaces)
    as (s1 & s2 & excluded & injected & Hrun1 & Hrun2 & Hs1 & Hs2 & Hex & _).
  - reflexivity.
  - exists EarlyRepo.root, EarlyRepo.root, EarlyRepo.b. repeat split; reflexivity.
  - exists s1, s2. split_and!; [exact Hrun1 | exact Hrun2 | |].
    + rewrite Hs1, Hex. vm_compute. reflexivity.
    + replace s2 with (RevisionTwo._setSiblingDeps EarlyRepo.world Monorepo.fresh).2
        by (by rewrite Hrun2).
      vm_compute. reflexivity.
Defined.

(** ** The earlier revisions: the list is always assigned *)

(** X12: in the two earlier revisions discovery assigns the empty list
    before it probes, so when no registry has its manifest file at both
    locations the list is empty after the warning, and the hooks of the
    second revision hand their argument back: [prepareRequests] returns the
    requests and [preparePatterns] the patterns, unchanged. *)
Theorem earlier_discovery_miss_is_harmless
    (W : Earlier.EarlyWorld) (s : Isolate)
    (requests : list DependencyRequest) (pats : list string) :
  noCommonManifest (Earlier.files W) (config s) ->
  exists s1 s2,
    RevisionOne.setNonWorkspaceDeps W s = (Ok tt, s1)
    /\ RevisionTwo._setSiblingDeps W s = (Ok tt, s2)
    /\ s1 = s2
    /\ siblingWorkspaces s2 = Some []
    /\ trace s2 = trace s ++ probes (Earlier.files W) (config s) (registries (Earlier.files W))
                          ++ [ConsoleWarn "no sibling workspaces"]
    /\ RevisionTwo.prepareRequests requests s2 = (Ok requests, s2)
    /\ RevisionTwo.preparePatterns pats s2 = (Ok (map Some pats), s2).
Proof.
  intros Hmiss.
  pose proof (findRegistry_miss_from (Earlier.files W) (registries (Earlier.files W))
                (with_siblingWorkspaces [] s) (trace s) Hmiss) as Hrun.
  change (with_trace (trace s) (with_siblingWorkspaces [] s))
    with (with_siblingWorkspaces [] s) in Hrun.
  eexists _, _. split_and!.
  - unfold RevisionOne.setNonWorkspaceDeps. unfold bind at 1.
    unfold set_siblingWorkspaces at 1. unfold bind at 1. rewrite Hrun. reflexivity.
  - unfold RevisionTwo._setSiblingDeps. unfold bind at 1.
    unfold set_siblingWorkspaces at 1. unfold bind at 1. rewrite Hrun. reflexivity.
  - reflexivity.
  - reflexivity.
  - cbn. by rewrite <- app_assoc.
  - reflexivity.
  - unfold RevisionTwo.preparePatterns, bind, this, ret. cbn. by rewrite app_nil_r.
Qed.

Lemma earlier_discovery_miss_is_harmless_witness :
  exists s2,
    RevisionTwo._setSiblingDeps EarlyRepo.bareWorld Monorepo.fresh = (Ok tt, s2)
    /\ siblingWorkspaces s2 = Some []
    /\ RevisionTwo.prepareRequests [Monorepo.lodash] s2 = (Ok [Monorepo.lodash], s2).
Proof.
  destruct (earlier_discovery_miss_is_harmless EarlyRepo.bareWorld Monorepo.fresh
              [Monorepo.lodash] [])
    as (s1 & s2 & _ & Hrun & _ & Hs & _ & Hreq & _).
  - repeat constructor.
  - exists s2. split_and!; assumption.
Defined.

(** X13: in the second revision the sibling list is an array after
    [_setSiblingDeps], whether it returned or threw; so after it
    [prepareRequests] always returns a list that starts with the requests,
    and [preparePatterns] returns only defined patterns, starting with the
    given ones.  Called on an instance whose list was never assigned,
    [preparePatterns] appends one [undefined] instead. *)
Theorem setSiblingDeps_always_assigns
    (W : Earlier.EarlyWorld) (s : Isolate)
    (requests : list DependencyRequest) (pats : list string) :
  let s' := (RevisionTwo._setSiblingDeps W s).2 in
  (exists sibs,
     siblingWorkspaces s' = Some sibs
     /\ RevisionTwo.prepareRequests requests s'
        = (Ok (requests ++ map siblingRequest sibs), s')
     /\ RevisionTwo.preparePatterns pats s' = (Ok (map Some (pats ++ sibs)), s'))
  /\ (siblingWorkspaces s = None ->
      RevisionTwo.preparePatterns pats s = (Ok (map Some pats ++ [None]), s)).
Proof.
  cbv zeta. split.
  - enough (exists sibs, siblingWorkspaces (RevisionTwo._setSiblingDeps W s).2 = Some sibs)
      as [sibs Hs].
    { exists sibs. split_and!; [exact Hs| |].
      - unfold RevisionTwo.prepareRequests, prepareRequests. with_siblings Hs.
        by rewrite fold_left_push.
      - unfold RevisionTwo.preparePatterns, bind, this, ret. rewrite Hs.
        by rewrite map_app. }
    set (s0 := with_siblingWorkspaces [] s).
    destruct (findRegistry_frame (Earlier.files W) (registries (Earlier.files W)) s0)
      as (evs & found & Hrun).
    unfold RevisionTwo._setSiblingDeps. unfold bind at 1.
    unfold set_siblingWorkspaces at 1. fold s0. unfold bind at 1. rewrite Hrun.
    destruct found as [[rootLoc workspaceLoc]|]; [|by eexists].
    unfold Earlier.readBoth. unfold bind at 1. rewrite bind_this.
    unfold Earlier.readManifest, bind, emit, lift, set_siblingWorkspaces, ret.
    cbn [config with_trace with_event fst snd].
    destruct (Earlier.readJson W rootLoc) as [rawRoot|]; [|by eexists].
    destruct (Earlier.normalize W rawRoot _ true) as [rootManifest|]; [|by eexists].
    destruct (Earlier.readJson W workspaceLoc) as [rawWs|]; [|by eexists].
    destruct (Earlier.normalize W rawWs _ false) as [wsManifest|]; [|by eexists].
    destruct (Earlier.resolveWorkspaces W _ rootManifest) as [allWorkspaces|]; [|by eexists].
    destruct (map_result _ _); by eexists.
  - intros Hs. unfold RevisionTwo.preparePatterns, bind, this, ret. by rewrite Hs.
Qed.

(** ** Folding is not repeatable *)

(** X14: [preparePatternsForLinking] cannot be applied to its own result:
    once the siblings are folded out of the list, a second call on the
    returned list finds the first sibling pattern missing and stops with the
    invariant violation, its message the text quoting that pattern and the
    returned list as the [invariant] package formats it. *)
Theorem fold_again_is_fatal
    (E : Collaborators) (s : Isolate) (pats : list string) (cwdManifest : Manifest)
    (target : nat) (m : Manifest) (first : string) (rest : list string) :
  patterns (resolver s) !! (name cwdManifest +:+ "@" +:+ version cwdManifest) = Some target ->
  packages (resolver s) !! target = Some m ->
  is_Some (_reference m) ->
  siblingWorkspaces s = Some (first :: rest) ->
  NoDup (first :: rest) ->
  Forall (fun pat => pat ∈ pats /\ is_Some (addedInfo E s pat)) (first :: rest) ->
  exists out s',
    preparePatternsForLinking E pats cwdManifest false s = (Ok out, s')
    /\ (preparePatternsForLinking E out cwdManifest false s').1
       = Throw (InvariantViolation (formatMessage (expectAdded first out))).
Proof.
  intros Htarget Hm Href Hs Hnd Hall.
  destruct (iterateAdded_loop_fold E target pats (first :: rest) pats s m Hm Href Hnd Hall)
    as (m' & Hrun & Hn & Hv & Href' & _).
  exists (filter (fun p => p ∉ first :: rest) pats), (with_cell target m' s). split.
  - unfold preparePatternsForLinking. rewrite bind_this.
    unfold getStrictResolvedPattern. rewrite Htarget, Hm.
    unfold _iterateAddedPackages. rewrite bind_this, Hs.
    unfold bind at 1. cbn [iterable ret]. exact Hrun.
  - destruct (fold_stops_at_missing_pattern E (with_cell target m' s)
                (filter (fun p => p ∉ first :: rest) pats) cwdManifest target m'
                [] rest first) as (m'' & -> & _).
    + exact Htarget.
    + cbn. by rewrite lookup_insert_eq.
    + exact Href'.
    + exact Hs.
    + constructor.
    + constructor.
    + rewrite (addedInfo_with_cell E target m m' s first Hm Hn Hv Href Href').
      by apply Forall_cons_1 in Hall as [[_ ?] _].
    + left. intros Hin. apply list_elem_of_filter in Hin as [Hnot _].
      apply Hnot. by left.
    + reflexivity.
Qed.

Lemma fold_again_is_fatal_witness :
  exists out s',
    preparePatternsForLinking Sample.collaborators
      ["lodash@^4.17.0"; "a@1.0.0"; "c@3.0.0"] (Monorepo.package "b" "2.0.0") false
      Monorepo.afterResolution = (Ok out, s')
    /\ (preparePatternsForLinking Sample.collaborators out
          (Monorepo.package "b" "2.0.0") false s').1
       = Throw (InvariantViolation (formatMessage (expectAdded "a@1.0.0" out))).
Proof.
  apply (fold_again_is_fatal Sample.collaborators Monorepo.afterResolution
           ["lodash@^4.17.0"; "a@1.0.0"; "c@3.0.0"] (Monorepo.package "b" "2.0.0") 1
           (Monorepo.package "b" "2.0.0") "a@1.0.0" ["c@3.0.0"]).
  - reflexivity.
  - reflexivity.
  - by eexists.
  - reflexivity.
  - apply (bool_decide_unpack _). vm_compute. reflexivity.
  - repeat constructor; first [ apply (bool_decide_unpack _); vm_compute; reflexivity
                              | by eexists ].
Defined.

(** ** The root check in every revision *)

(** X15: the two earlier revisions refuse to run in the workspace root in
    the same way as the last one: [init] throws the
    [workspacesIsolateRootCheck] message error and leaves the instance as it
    was, without assigning the empty list, probing the file system or
    starting the installer. *)
Theorem earlier_init_at_root_fails_fast
    (W : Earlier.EarlyWorld) (s : Isolate) (root : string) :
  workspaceRootFolder (config s) = Some root ->
  root <> "" ->
  cwd (config s) = root ->
  RevisionOne.init W s = (Throw (MessageError (Lang "workspacesIsolateRootCheck" [])), s)
  /\ RevisionTwo.init W s = (Throw (MessageError (Lang "workspacesIsolateRootCheck" [])), s)
  /\ RevisionOne.init W s = init (Earlier.files W) s.
Proof.
  intros Hroot Hne Hcwd.
  assert (Hcheck : cwdIsWorkspaceRoot (config s) = true).
  { unfold cwdIsWorkspaceRoot. rewrite Hroot, Hcwd, String.eqb_refl.
    unfold truthy. by destruct (String.eqb_spec root ""). }
  unfold RevisionOne.init, RevisionTwo.init, init. rewrite !bind_this, Hcheck.
  by split_and!.
Qed.

Lemma earlier_init_at_root_fails_fast_witness :
  RevisionTwo.init EarlyRepo.world Monorepo.freshAtRoot
  = (Throw (MessageError (Lang "workspacesIsolateRootCheck" [])), Monorepo.freshAtRoot).
Proof.
  apply (earlier_init_at_root_fails_fast EarlyRepo.world Monorepo.freshAtRoot "/repo");
    [reflexivity | discriminate | reflexivity].
Defined.
